(** * Adaptive synchronisation and guarded destroy (libocoms service layer)

    A shallow embedding of
    [src/comm_proj/service/datatype/service_datatype_destroy.c], which holds
    [service_datatype_destroy] followed by the mutex header
    (the thread-mode flag, the [CCS_THREAD_*] macros and [CCS_CMPSET]).

    Pointers are addresses in [Z] with [NULL = 0]; memory is a finite map from
    addresses to values; a dereference of [NULL] or of an address that holds
    nothing is a fault.  C integers are [Z] with the conversion to the
    target type written out. *)

From Stdlib Require Import ZArith Lia List String.
From stdpp Require Import base option gmap.

Import ListNotations.
Local Open Scope Z_scope.

(** ** Machine integers *)

Module CInt.

(** Conversion of a mathematical integer to a signed [w]-bit integer. *)
Definition wrap_signed (w z : Z) : Z :=
  (z + 2 ^ (w - 1)) mod 2 ^ w - 2 ^ (w - 1).

(** Conversion to an unsigned [w]-bit integer. *)
Definition wrap_unsigned (w z : Z) : Z := z mod 2 ^ w.

(** The integer types the macros of the header are used at. *)
Inductive ctype := Int32 | Int64 | SizeT.

Definition conv (t : ctype) (z : Z) : Z :=
  match t with
  | Int32 => wrap_signed 32 z
  | Int64 => wrap_signed 64 z
  | SizeT => wrap_unsigned 64 z
  end.

Definition min_of (t : ctype) : Z :=
  match t with
  | Int32 => - 2 ^ 31
  | Int64 => - 2 ^ 63
  | SizeT => 0
  end.

Definition max_of (t : ctype) : Z :=
  match t with
  | Int32 => 2 ^ 31 - 1
  | Int64 => 2 ^ 63 - 1
  | SizeT => 2 ^ 64 - 1
  end.

Definition in_range (t : ctype) (z : Z) : Prop := min_of t <= z <= max_of t.

(** [int] is 32 bits wide on the platforms of the library. *)
Definition int (z : Z) : Z := conv Int32 z.

End CInt.

(** ** Faulting state monad

    Every operation of the layer runs on a world [S]; it either returns a
    value and the next world or faults on a bad dereference. *)

Inductive fault := NullDeref | WildDeref.

Inductive result (S A : Type) :=
| Ok (a : A) (s : S)
| Fault (f : fault).
Arguments Ok {S A} a s.
Arguments Fault {S A} f.

Definition M (S A : Type) : Type := S -> result S A.

Definition ret {S A} (a : A) : M S A := fun s => Ok a s.

Definition bind {S A B} (c : M S A) (k : A -> M S B) : M S B :=
  fun s => match c s with
           | Ok a s' => k a s'
           | Fault f => Fault f
           end.

Definition get {S} : M S S := fun s => Ok s s.
Definition put {S} (s : S) : M S unit := fun _ => Ok tt s.
Definition modify {S} (f : S -> S) : M S unit := fun s => Ok tt (f s).
Definition raise {S A} (f : fault) : M S A := fun _ => Fault f.

Notation "'let*' x := c1 'in' c2" := (bind c1 (fun x => c2))
  (at level 10, x name, c1 at level 100, c2 at level 200).
Notation "c1 ;; c2" := (bind c1 (fun _ => c2))
  (at level 100, c2 at level 200, right associativity).

Definition NULL : Z := 0.

(** [*p] for a pointer [p] into the map [m] of some world. *)
Definition deref {S V} (m : S -> gmap Z V) (p : Z) : M S V :=
  fun s =>
    if decide (p = NULL) then Fault NullDeref
    else match m s !! p with
         | Some v => Ok v s
         | None => Fault WildDeref
         end.

(** [*p = v] for a pointer [p] into the map [m]; [upd] writes the map back. *)
Definition assign {S V} (m : S -> gmap Z V) (upd : gmap Z V -> S -> S)
    (p : Z) (v : V) : M S unit :=
  let* _ := deref m p in
  modify (fun s => upd (<[p := v]> (m s)) s).

(** C's short-circuit [a && b]. *)
Definition and_then {S} (a b : M S bool) : M S bool :=
  let* x := a in if x then b else ret false.

(** ** Build configuration and the thread-mode flag *)

(** The two configuration macros the header branches on with [#if]. *)
Record build := Build {
  CCS_ENABLE_MULTI_THREADS : bool;
  CCS_ENABLE_DEBUG : bool
}.

(** The three configurations the header distinguishes. *)
Definition threaded_build : build := Build true false.
Definition debug_build : build := Build false true.
Definition plain_build : build := Build false false.

Module ThreadMode.

(** [extern bool ccs_uses_threads] *)
Record globals := Globals { ccs_uses_threads : bool }.

(** [#define ccs_using_threads() ccs_uses_threads] *)
Definition ccs_using_threads : M globals bool :=
  let* g := get in ret (ccs_uses_threads g).

Definition ccs_set_using_threads (b : build) (have : bool) : M globals bool :=
  (if CCS_ENABLE_MULTI_THREADS b
   then put (Globals have)
   else put (Globals false)) ;;
  ccs_using_threads.

(** Runs an operation on the flag inside a larger world. *)
Definition lift {S A} (thr : S -> globals) (upd : globals -> S -> S)
    (c : M globals A) : M S A :=
  fun s => match c (thr s) with
           | Ok a g => Ok a (upd g s)
           | Fault f => Fault f
           end.

(** The calls of [ccs_set_using_threads] made one after the other by the
    start-up code of the callers. *)
Fixpoint set_each (b : build) (haves : list bool) : M globals unit :=
  match haves with
  | [] => ret tt
  | have :: rest => ccs_set_using_threads b have ;; set_each b rest
  end.

End ThreadMode.

(** ** Atomic fallback *)

Module Atomic.
Import CInt ThreadMode.

(** The flag and the integer objects the add macros point at. *)
Record world := World {
  thr : globals;
  cells : gmap Z Z
}.

Definition set_cells (c : gmap Z Z) (w : world) : world := World (thr w) c.

Definition using_threads : M world bool :=
  lift thr (fun g w => World g (cells w)) ccs_using_threads.

(** [( *x += y )] where [*x] has type [t]: the sum is converted to [t],
    stored, and is the value of the expression. *)
Definition add_assign (t : ctype) (x y : Z) : M world Z :=
  let* v := deref cells x in
  let v' := conv t (v + y) in
  assign cells set_cells x v' ;;
  ret v'.

(** Modelled from the spec: [service_atomic_add_32], [service_atomic_add_64]
    and [service_atomic_add_size_t] are declared in [service/sys/atomic.h],
    which is not part of the sources.  Spec 4.5 and 6: [atomicAdd(ptr,
    delta) -> newValue] performs a true atomic add, so the object is
    updated in one indivisible step and the new value is returned. *)
Definition atomic_add (t : ctype) (x y : Z) : M world Z :=
  fun w =>
    if decide (x = NULL) then Fault NullDeref
    else
      let c := alter (fun v => conv t (v + y)) x (cells w) in
      match c !! x with
      | Some v' => Ok v' (set_cells c w)
      | None => Fault WildDeref
      end.

Definition service_atomic_add_32 := atomic_add Int32.
Definition service_atomic_add_64 := atomic_add Int64.
Definition service_atomic_add_size_t := atomic_add SizeT.

Definition CCS_THREAD_ADD32 (b : build) (x y : Z) : M world Z :=
  if CCS_ENABLE_MULTI_THREADS b then
    let* t := using_threads in
    if t then service_atomic_add_32 x y else add_assign Int32 x y
  else add_assign Int32 x y.

Definition CCS_THREAD_ADD64 (b : build) (x y : Z) : M world Z :=
  if CCS_ENABLE_MULTI_THREADS b then
    let* t := using_threads in
    if t then service_atomic_add_64 x y else add_assign Int64 x y
  else add_assign Int64 x y.

Definition CCS_THREAD_ADD_SIZE_T (b : build) (x y : Z) : M world Z :=
  if CCS_ENABLE_MULTI_THREADS b then
    let* t := using_threads in
    if t then service_atomic_add_size_t x y else add_assign SizeT x y
  else add_assign SizeT x y.

(** The add macro and the atomic primitive used at each type. *)
Definition CCS_THREAD_ADD (t : ctype) : build -> Z -> Z -> M world Z :=
  match t with
  | Int32 => CCS_THREAD_ADD32
  | Int64 => CCS_THREAD_ADD64
  | SizeT => CCS_THREAD_ADD_SIZE_T
  end.

Definition service_atomic_add (t : ctype) : Z -> Z -> M world Z :=
  match t with
  | Int32 => service_atomic_add_32
  | Int64 => service_atomic_add_64
  | SizeT => service_atomic_add_size_t
  end.

(** [CCS_CMPSET(x, y, z)] is generic in the type [V] of [*x]:
    [(( *(x) == (y)) ? (( *(x) = (z)), 1) : 0)]. *)
Section Cmpset.
Context {V : Type} `{EqDecision V}.

Definition CCS_CMPSET (x : Z) (y z : V) : M (gmap Z V) Z :=
  let* v := deref id x in
  if decide (v = y)
  then assign id (fun c _ => c) x z ;; ret 1
  else ret 0.
End Cmpset.

(** The compare-and-set macros.  [service_atomic_cmpset_32],
    [serivce_atomic_cmpset_64] (spelled as the header spells it) and
    [service_atomic_cmpset] are declared in [service/sys/atomic.h], which is
    not part of the sources: any three operations.  The macros are the ones
    the header defines when [CCS_HAVE_ATOMIC_CMPSET_32] and
    [CCS_HAVE_ATOMIC_CMPSET_64] are set. *)
Section AtomicCmpset.
Variables service_atomic_cmpset_32 serivce_atomic_cmpset_64 service_atomic_cmpset
  : Z -> Z -> Z -> M world Z.

(** [CCS_CMPSET] on the integer objects of the world. *)
Definition cmpset_cells (x y z : Z) : M world Z :=
  fun w => match CCS_CMPSET x y z (cells w) with
           | Ok r c => Ok r (set_cells c w)
           | Fault f => Fault f
           end.

Definition CCS_ATOMIC_CMPSET_32 (b : build) (x y z : Z) : M world Z :=
  if CCS_ENABLE_MULTI_THREADS b then
    let* t := using_threads in
    if t then service_atomic_cmpset_32 x y z else cmpset_cells x y z
  else cmpset_cells x y z.

Definition CCS_ATOMIC_CMPSET_64 (b : build) (x y z : Z) : M world Z :=
  if CCS_ENABLE_MULTI_THREADS b then
    let* t := using_threads in
    if t then serivce_atomic_cmpset_64 x y z else cmpset_cells x y z
  else cmpset_cells x y z.

Definition CCS_ATOMIC_CMPSET (b : build) (x y z : Z) : M world Z :=
  if CCS_ENABLE_MULTI_THREADS b then
    let* t := using_threads in
    if t then service_atomic_cmpset x y z else cmpset_cells x y z
  else cmpset_cells x y z.
End AtomicCmpset.

End Atomic.

(** ** Adaptive mutex, debug lock tracker and scoped lock executor *)

Module Mutex.
Import CInt ThreadMode.

(** The debug sub-record of [struct service_mutex_t]; [m_lock_file] is a
    [const char *], [None] standing for [NULL]. *)
Record service_mutex_t := Mtx {
  m_lock_debug : Z;
  m_lock_file : option string;
  m_lock_line : Z
}.

(** One [service_output(0, fmt, ...)] call: the format and its arguments. *)
Inductive arg := AStr (s : option string) | AInt (z : Z).
Record message := Msg { fmt : string; args : list arg }.

(** The platform mutex ([mutex_unix.h] / [mutex_windows.h]), which the
    layer only calls: any state and any three operations on it. *)
Class Platform := {
  pstate : Type;
  service_mutex_lock : Z -> pstate -> pstate;
  service_mutex_trylock : Z -> pstate -> Z * pstate;
  service_mutex_unlock : Z -> pstate -> pstate
}.

(** A test double that only records the calls it receives. *)
Inductive pcall := PLock (mutex : Z) | PTrylock (mutex : Z) | PUnlock (mutex : Z).

Definition recorder : Platform := {|
  pstate := list pcall;
  service_mutex_lock m s := s ++ [PLock m];
  service_mutex_trylock m s := (0, s ++ [PTrylock m]);
  service_mutex_unlock m s := s ++ [PUnlock m]
|}.

Section Macros.
Context {P : Platform}.

Record world := World {
  thr : globals;
  service_mutex_check_locks : bool;
  mutexes : gmap Z service_mutex_t;
  plat : pstate;
  output : list message
}.

Definition set_thr (g : globals) (w : world) : world :=
  World g (service_mutex_check_locks w) (mutexes w) (plat w) (output w).
Definition set_mutexes (m : gmap Z service_mutex_t) (w : world) : world :=
  World (thr w) (service_mutex_check_locks w) m (plat w) (output w).
Definition set_plat (p : pstate) (w : world) : world :=
  World (thr w) (service_mutex_check_locks w) (mutexes w) p (output w).
Definition set_output (o : list message) (w : world) : world :=
  World (thr w) (service_mutex_check_locks w) (mutexes w) (plat w) o.

Definition using_threads : M world bool := lift thr set_thr ccs_using_threads.

Definition check_locks : M world bool :=
  let* w := get in ret (service_mutex_check_locks w).

Definition service_output (id : Z) (f : string) (a : list arg) : M world unit :=
  modify (fun w => set_output (output w ++ [Msg f a]) w).

Definition platform_lock (mutex : Z) : M world unit :=
  modify (fun w => set_plat (service_mutex_lock mutex (plat w)) w).
Definition platform_unlock (mutex : Z) : M world unit :=
  modify (fun w => set_plat (service_mutex_unlock mutex (plat w)) w).
Definition platform_trylock (mutex : Z) : M world Z :=
  let* w := get in
  let '(r, p) := service_mutex_trylock mutex (plat w) in
  put (set_plat p w) ;; ret r.

(** [(mutex)->field] read and written. *)
Definition rd {A} (field : service_mutex_t -> A) (mutex : Z) : M world A :=
  let* m := deref mutexes mutex in ret (field m).
Definition wr (upd : service_mutex_t -> service_mutex_t) (mutex : Z) : M world unit :=
  let* m := deref mutexes mutex in
  assign mutexes set_mutexes mutex (upd m).

Definition with_debug (d : Z) (m : service_mutex_t) : service_mutex_t :=
  Mtx d (m_lock_file m) (m_lock_line m).
Definition with_file (f : option string) (m : service_mutex_t) : service_mutex_t :=
  Mtx (m_lock_debug m) f (m_lock_line m).
Definition with_line (l : Z) (m : service_mutex_t) : service_mutex_t :=
  Mtx (m_lock_debug m) (m_lock_file m) l.

(** [(mutex)->m_lock_debug++] and [(mutex)->m_lock_debug--] on an [int]. *)
Definition incr_debug (mutex : Z) : M world unit :=
  let* d := rd m_lock_debug mutex in wr (with_debug (int (d + 1))) mutex.
Definition decr_debug (mutex : Z) : M world unit :=
  let* d := rd m_lock_debug mutex in wr (with_debug (int (d - 1))) mutex.

(** [file] and [line] stand for [__FILE__] and [__LINE__] at the place
    where the macro is expanded. *)
Definition CCS_THREAD_LOCK (b : build) (mutex : Z) (file : string) (line : Z)
    : M world unit :=
  if CCS_ENABLE_MULTI_THREADS b then
    let* t := using_threads in
    if t then platform_lock mutex else ret tt
  else if CCS_ENABLE_DEBUG b then
    incr_debug mutex ;;
    let* c := and_then check_locks
                (let* d := rd m_lock_debug mutex in ret (negb (1 =? d))) in
    (if c then
       let* f := rd m_lock_file mutex in
       let* l := rd m_lock_line mutex in
       service_output 0 "Warning -- mutex already locked at %s:%d, now at %s:%d"
         [AStr f; AInt l; AStr (Some file); AInt line]
     else ret tt) ;;
    wr (with_file (Some file)) mutex ;;
    wr (with_line line) mutex
  else ret tt.

Definition service_thread_debug_trylock (mutex : Z) (file : option string)
    (line : Z) : M world Z :=
  let* d := rd m_lock_debug mutex in
  if 0 =? d then
    incr_debug mutex ;;
    wr (with_file file) mutex ;;
    wr (with_line line) mutex ;;
    ret 0
  else
    let* c := check_locks in
    (if c then
       let* f := rd m_lock_file mutex in
       let* l := rd m_lock_line mutex in
       service_output 0
         "Warning -- during trylock, mutex already locked at %s:%d now at %s:%d"
         [AStr file; AInt line; AStr f; AInt l]
     else ret tt) ;;
    ret (-1).

Definition CCS_THREAD_TRYLOCK (b : build) (mutex : Z) (file : string) (line : Z)
    : M world Z :=
  if CCS_ENABLE_MULTI_THREADS b then
    let* t := using_threads in
    if t then platform_trylock mutex else ret 0
  else if CCS_ENABLE_DEBUG b then
    service_thread_debug_trylock mutex (Some file) line
  else ret 0.

Definition CCS_THREAD_UNLOCK (b : build) (mutex : Z) (file : string) (line : Z)
    : M world unit :=
  if CCS_ENABLE_MULTI_THREADS b then
    let* t := using_threads in
    if t then platform_unlock mutex else ret tt
  else if CCS_ENABLE_DEBUG b then
    decr_debug mutex ;;
    let* c1 := and_then check_locks
                 (let* d := rd m_lock_debug mutex in ret (0 >? d)) in
    if c1 then
      service_output 0 "Warning -- mutex was double locked from %s:%d"
        [AStr (Some file); AInt line]
    else
      let* c2 := and_then check_locks
                   (let* d := rd m_lock_debug mutex in ret (0 >? d)) in
      if c2 then
        service_output 0 "Warning -- mutex not locked from %s:%d"
          [AStr (Some file); AInt line]
      else
        wr (with_file None) mutex ;;
        wr (with_line 0) mutex
  else ret tt.

(** [action] is the expression the macro is given; it runs on the same
    world and may read and change it. *)
Definition CCS_THREAD_SCOPED_LOCK (b : build) (mutex : Z) (action : M world unit)
    (file : string) (line : Z) : M world unit :=
  if CCS_ENABLE_MULTI_THREADS b then
    let* t := using_threads in
    if t then
      platform_lock mutex ;;
      action ;;
      platform_unlock mutex
    else action
  else if CCS_ENABLE_DEBUG b then
    let* d := rd m_lock_debug mutex in
    (if negb (0 =? d) then
       let* f := rd m_lock_file mutex in
       let* l := rd m_lock_line mutex in
       service_output 0
         "scoped_lock: Warning -- mutex already locked at %s:%d, now at %s:%d"
         [AStr (Some file); AInt line; AStr f; AInt l]
     else ret tt) ;;
    decr_debug mutex ;;
    action ;;
    incr_debug mutex
  else action.

(** A sequence of lock and unlock calls made by the users of the layer. *)
Inductive call :=
| Lock (mutex : Z) (file : string) (line : Z)
| Unlock (mutex : Z) (file : string) (line : Z).

Definition perform (b : build) (c : call) : M world unit :=
  match c with
  | Lock mutex file line => CCS_THREAD_LOCK b mutex file line
  | Unlock mutex file line => CCS_THREAD_UNLOCK b mutex file line
  end.

Fixpoint run (b : build) (cs : list call) : M world unit :=
  match cs with
  | [] => ret tt
  | c :: cs' => perform b c ;; run b cs'
  end.

(** The mutex a call is made on. *)
Definition call_mutex (c : call) : Z :=
  match c with
  | Lock mutex _ _ => mutex
  | Unlock mutex _ _ => mutex
  end.

(** The platform primitive a call stands for in the threaded build. *)
Definition delegate (c : call) (p : pstate) : pstate :=
  match c with
  | Lock mutex _ _ => service_mutex_lock mutex p
  | Unlock mutex _ _ => service_mutex_unlock mutex p
  end.

(** The world with the record of one mutex and the log replaced. *)
Definition update (mutex : Z) (m : service_mutex_t) (out : list message)
    (w : world) : world :=
  set_output out (set_mutexes (<[mutex := m]> (mutexes w)) w).

End Macros.
Arguments world : clear implicits.

End Mutex.

(** ** Reference-counted singleton guard *)

Module Datatype.
Import CInt.

(** The two fields of [service_datatype_t] that destroy reads:
    [flags] and [super.obj_reference_count] (an [int32_t]). *)
Record service_datatype_t := Dt {
  flags : Z;
  obj_reference_count : Z
}.

(** [handles] are the callers' variables of type [service_datatype_t *],
    [objects] the live objects; [released] and [freed] record, in order,
    the objects handed to the release operation and the objects freed. *)
Record world := World {
  handles : gmap Z Z;
  objects : gmap Z service_datatype_t;
  released : list Z;
  freed : list Z
}.

Definition set_handles (h : gmap Z Z) (w : world) : world :=
  World h (objects w) (released w) (freed w).
Definition set_objects (o : gmap Z service_datatype_t) (w : world) : world :=
  World (handles w) o (released w) (freed w).

Definition with_count (c : Z) (o : service_datatype_t) : service_datatype_t :=
  Dt (flags o) c.

(** Modelled from the spec: [OBJ_RELEASE] belongs to the object system,
    whose header is not part of the sources.  Spec 4.6 and 6: the generic
    release performs the unconditional decrement of [refCount] and frees
    the object and its resources if [refCount] reaches 0; the decrement
    follows the discipline of 4.5, an add of [-1] on the [int32_t] count. *)
Definition OBJ_RELEASE (p : Z) : M world unit :=
  let* o := deref objects p in
  let c := conv Int32 (obj_reference_count o + -1) in
  modify (fun w => World (handles w) (objects w) (released w ++ [p]) (freed w)) ;;
  assign objects set_objects p (with_count c o) ;;
  if 0 =? c then
    modify (fun w => World (handles w) (delete p (objects w)) (released w)
                           (freed w ++ [p]))
  else ret tt.

Section Destroy.
(** [CCS_DATATYPE_FLAG_PREDEFINED], [CCS_SUCCESS] and [CCS_ERROR] come
    from headers that are not part of the sources. *)
Variables CCS_DATATYPE_FLAG_PREDEFINED CCS_SUCCESS CCS_ERROR : Z.

Definition service_datatype_destroy (dt : Z) : M world Z :=
  let* pData := deref handles dt in
  let* c := and_then
              (let* o := deref objects pData in
               ret (negb (Z.land (flags o) CCS_DATATYPE_FLAG_PREDEFINED =? 0)))
              (let* o := deref objects pData in
               ret (obj_reference_count o <=? 1)) in
  if c then ret CCS_ERROR
  else
    OBJ_RELEASE pData ;;
    assign handles set_handles dt NULL ;;
    ret CCS_SUCCESS.

(** [isPredefined] of the data model. *)
Definition is_predefined (o : service_datatype_t) : bool :=
  negb (Z.land (flags o) CCS_DATATYPE_FLAG_PREDEFINED =? 0).

(** Destroy called through each of the handles in turn; the values
    returned, in order. *)
Fixpoint destroy_each (dts : list Z) : M world (list Z) :=
  match dts with
  | [] => ret []
  | dt :: rest =>
      let* r := service_datatype_destroy dt in
      let* rs := destroy_each rest in
      ret (r :: rs)
  end.
End Destroy.

End Datatype.

(** ** Sample worlds

    The scenarios of the specification and the inputs the properties below
    are instantiated at. *)

Module Sample.
Import ThreadMode.

(** Values of the constants in the library this layer was taken from. *)
Definition FLAG_PREDEFINED : Z := 2.
Definition SUCCESS : Z := 0.
Definition ERROR : Z := -1.

(** A handle at address 100 to the object at address 200. *)
Definition datatype_world (o : Datatype.service_datatype_t) : Datatype.world :=
  Datatype.World {[100 := 200]} {[200 := o]} [] [].

Definition predefined_1 := Datatype.Dt 2 1.
Definition predefined_2 := Datatype.Dt 2 2.
Definition plain_1 := Datatype.Dt 0 1.

(** The mutex at address 1, on the recording platform, with the hint off. *)
Definition mutex_world (check : bool) (m : Mutex.service_mutex_t)
    : Mutex.world Mutex.recorder :=
  Mutex.World (P := Mutex.recorder) (Globals false) check {[1 := m]}
    ([] : list Mutex.pcall) [].

Definition unlocked := Mutex.Mtx 0 None 0.
Definition locked := Mutex.Mtx 1 (Some "a.c"%string) 10.

(** An [int32_t] holding 41 at address 8, with the hint off. *)
Definition counter_world : Atomic.world := Atomic.World (Globals false) {[8 := 41]}.

(** Two handles, at 100 and 101, to the object at address 200. *)
Definition shared_world (o : Datatype.service_datatype_t) : Datatype.world :=
  Datatype.World {[100 := 200; 101 := 200]} {[200 := o]} [] [].

Definition plain_2 := Datatype.Dt 0 2.

(** The same mutex world with the hint on. *)
Definition threaded_world : Mutex.world Mutex.recorder :=
  Mutex.World (P := Mutex.recorder) (Globals true) false {[1 := unlocked]}
    ([] : list Mutex.pcall) [].

(** A recording stand-in for the three atomic compare-and-set primitives:
    it leaves the memory alone and answers 7. *)
Definition cmpset_stub (x y z : Z) : M Atomic.world Z := ret 7.

End Sample.

(** * Properties *)

(** ** Machine integers *)

Section CIntFacts.
Import CInt.

Lemma wrap_signed_small w z :
  0 < w -> - 2 ^ (w - 1) <= z < 2 ^ (w - 1) -> wrap_signed w z = z.
Proof.
  intros Hw Hz. unfold wrap_signed.
  assert (H2 : 2 ^ w = 2 * 2 ^ (w - 1)).
  { replace w with (Z.succ (w - 1)) at 1 by lia. apply Z.pow_succ_r. lia. }
  rewrite Z.mod_small; lia.
Qed.

Lemma conv_in_range t z : in_range t z -> conv t z = z.
Proof.
  unfold in_range. destruct t; simpl; intros Hz.
  - apply wrap_signed_small; simpl in *; lia.
  - apply wrap_signed_small; simpl in *; lia.
  - unfold wrap_unsigned. apply Z.mod_small. simpl in *. lia.
Qed.

Lemma conv_range t z : in_range t (conv t z).
Proof.
  unfold in_range.
  destruct t; simpl; unfold wrap_signed, wrap_unsigned.
  - pose proof (Z.mod_pos_bound (z + 2 ^ (32 - 1)) (2 ^ 32) eq_refl).
    change (2 ^ (32 - 1)) with 2147483648 in *.
    change (2 ^ 32) with 4294967296 in *. change (2 ^ 31) with 2147483648. lia.
  - pose proof (Z.mod_pos_bound (z + 2 ^ (64 - 1)) (2 ^ 64) eq_refl).
    change (2 ^ (64 - 1)) with 9223372036854775808 in *.
    change (2 ^ 64) with 18446744073709551616 in *.
    change (2 ^ 63) with 9223372036854775808. lia.
  - pose proof (Z.mod_pos_bound z (2 ^ 64) eq_refl).
    change (2 ^ 64) with 18446744073709551616 in *. lia.
Qed.

Lemma int_small z : - 2 ^ 31 <= z <= 2 ^ 31 - 1 -> int z = z.
Proof. intros Hz. apply conv_in_range. exact Hz. Qed.

End CIntFacts.

(** ** The monad and the memory operations *)

Section MonadFacts.
Context {S V : Type} (m : S -> gmap Z V) (upd : gmap Z V -> S -> S).

Lemma deref_ok p v s : p <> NULL -> m s !! p = Some v -> deref m p s = Ok v s.
Proof.
  intros Hp Hv. unfold deref. destruct (decide (p = NULL)) as [E|_]; [contradiction|].
  now rewrite Hv.
Qed.

Lemma deref_null s : deref m NULL s = Fault NullDeref.
Proof. unfold deref. destruct (decide (NULL = NULL)); [reflexivity|contradiction]. Qed.

Lemma deref_null_iff p s :
  deref m p s = Fault NullDeref <-> p = NULL.
Proof.
  split.
  - unfold deref. destruct (decide (p = NULL)) as [E|N]; [easy|].
    destruct (m s !! p); discriminate.
  - intros ->. apply deref_null.
Qed.

Lemma assign_ok p v v0 s :
  p <> NULL -> m s !! p = Some v0 ->
  assign m upd p v s = Ok tt (upd (<[p := v]> (m s)) s).
Proof.
  intros Hp Hv. unfold assign, bind. now rewrite (deref_ok p v0 s Hp Hv).
Qed.

End MonadFacts.

(** ** Thread-mode flag *)

Section ThreadModeFacts.
Import ThreadMode.

(** C7. [ccs_set_using_threads] stores the requested value in the flag when
    the build has thread support and stores [false] otherwise, whatever was
    requested; it returns the flag it has just stored, and that is what
    [ccs_using_threads()] returns afterwards. *)
Theorem set_using_threads_spec (b : build) (have : bool) (g : globals) :
  exists g',
    ccs_set_using_threads b have g = Ok (ccs_uses_threads g') g' /\
    ccs_uses_threads g' = (if CCS_ENABLE_MULTI_THREADS b then have else false) /\
    ccs_using_threads g' = Ok (ccs_uses_threads g') g'.
Proof.
  unfold ccs_set_using_threads.
  destruct (CCS_ENABLE_MULTI_THREADS b).
  - exists (Globals have). repeat split.
  - exists (Globals false). repeat split.
Qed.

End ThreadModeFacts.

(** ** Atomic fallback *)

Section AtomicFacts.
Import CInt ThreadMode Atomic.

Lemma add_assign_ok t x y v w :
  x <> NULL -> cells w !! x = Some v ->
  add_assign t x y w =
    Ok (conv t (v + y)) (set_cells (<[x := conv t (v + y)]> (cells w)) w).
Proof.
  intros Hx Hv. unfold add_assign, bind.
  rewrite (deref_ok cells x v w Hx Hv).
  now rewrite (assign_ok cells set_cells x _ v w Hx Hv).
Qed.

Lemma atomic_add_ok t x y v w :
  x <> NULL -> cells w !! x = Some v ->
  atomic_add t x y w =
    Ok (conv t (v + y)) (set_cells (<[x := conv t (v + y)]> (cells w)) w).
Proof.
  intros Hx Hv. unfold atomic_add.
  destruct (decide (x = NULL)) as [E|_]; [contradiction|].
  rewrite lookup_alter_eq, Hv. simpl.
  f_equal. f_equal.
  apply map_eq. intros i. destruct (decide (x = i)) as [->|Hne].
  - now rewrite lookup_alter_eq, lookup_insert_eq, Hv.
  - now rewrite lookup_alter_ne, lookup_insert_ne.
Qed.

(** The two paths agree on every pointer, the bad ones included. *)
Lemma add_assign_atomic t x y w : add_assign t x y w = atomic_add t x y w.
Proof.
  destruct (decide (x = NULL)) as [->|Hx].
  - unfold add_assign, bind, atomic_add. rewrite deref_null.
    destruct (decide (NULL = NULL)); [reflexivity|contradiction].
  - destruct (cells w !! x) as [v|] eqn:Hv.
    + now rewrite (add_assign_ok t x y v w Hx Hv), (atomic_add_ok t x y v w Hx Hv).
    + unfold add_assign, bind, atomic_add, deref.
      destruct (decide (x = NULL)) as [E|_]; [contradiction|].
      now rewrite lookup_alter_eq, Hv.
Qed.

Lemma using_threads_ok w : using_threads w = Ok (ccs_uses_threads (thr w)) w.
Proof. destruct w as [g c]. reflexivity. Qed.

Lemma thread_add_fallback t b x y w :
  ccs_uses_threads (thr w) = false ->
  CCS_THREAD_ADD t b x y w = add_assign t x y w.
Proof.
  intros Hf.
  destruct t; simpl;
    unfold CCS_THREAD_ADD32, CCS_THREAD_ADD64, CCS_THREAD_ADD_SIZE_T;
    (destruct (CCS_ENABLE_MULTI_THREADS b); [|reflexivity]);
    unfold bind; rewrite using_threads_ok, Hf; reflexivity.
Qed.

(** The plain path of the three add macros against the atomic add, with the
    world after the add in closed form. *)
Lemma thread_add_fallback_as_atomic_closed (t : ctype) (b : build) (x y : Z) (w : world) :
  ccs_uses_threads (thr w) = false ->
  CCS_THREAD_ADD t b x y w = add_assign t x y w /\
  CCS_THREAD_ADD t b x y w = service_atomic_add t x y w /\
  forall v, x <> NULL -> cells w !! x = Some v ->
    CCS_THREAD_ADD t b x y w =
      Ok (conv t (v + y)) (set_cells (<[x := conv t (v + y)]> (cells w)) w) /\
    (in_range t (v + y) -> conv t (v + y) = v + y).
Proof.
  intros Hf. rewrite (thread_add_fallback t b x y w Hf). split; [reflexivity|]. split.
  - rewrite add_assign_atomic. destruct t; reflexivity.
  - intros v Hx Hv. split.
    + apply add_assign_ok; assumption.
    + apply conv_in_range.
Qed.

(** C9. With the hint false, [CCS_THREAD_ADD32], [CCS_THREAD_ADD64] and
    [CCS_THREAD_ADD_SIZE_T] take the plain path [( *x += y )] in every build,
    and that path gives the same result and the same memory as the atomic
    add of the same type: at a valid pointer both store the sum of the old
    value and the delta, converted to the type of the target, and evaluate
    to the stored value, which is the exact sum whenever it fits the type. *)
Theorem thread_add_fallback_as_atomic (t : ctype) (b : build) (x y : Z) (w : world) :
  ccs_uses_threads (thr w) = false ->
  CCS_THREAD_ADD t b x y w = add_assign t x y w /\
  CCS_THREAD_ADD t b x y w = service_atomic_add t x y w /\
  forall v, x <> NULL -> cells w !! x = Some v ->
    exists w',
      CCS_THREAD_ADD t b x y w = Ok (conv t (v + y)) w' /\
      service_atomic_add t x y w = Ok (conv t (v + y)) w' /\
      cells w' !! x = Some (conv t (v + y)) /\
      (forall x', x' <> x -> cells w' !! x' = cells w !! x') /\
      thr w' = thr w /\
      (in_range t (v + y) -> conv t (v + y) = v + y).
Proof.
  intros Hf.
  destruct (thread_add_fallback_as_atomic_closed t b x y w Hf) as (Hplain & Hatomic & Hval).
  split; [exact Hplain|]. split; [exact Hatomic|].
  intros v Hx Hv. destruct (Hval v Hx Hv) as [Hrun Hfit].
  eexists. split; [exact Hrun|].
  split; [rewrite <- Hatomic; exact Hrun|].
  split; [cbn [cells set_cells]; apply lookup_insert_eq|].
  split.
  { intros x' Hne. cbn [cells set_cells]. apply lookup_insert_ne. congruence. }
  split; [reflexivity | exact Hfit].
Qed.

(** C3. At a valid pointer, [CCS_CMPSET(x, y, z)] evaluates to 1 exactly
    when the value at [x] equals [y], and to 0 otherwise; it stores [z] at
    [x] in the first case and leaves the memory as it was in the second. *)
Theorem cmpset_spec {V : Type} `{EqDecision V} (c : gmap Z V) (x : Z) (y z v : V) :
  x <> NULL -> c !! x = Some v ->
  exists r c',
    CCS_CMPSET x y z c = Ok r c' /\
    (r = 1 <-> v = y) /\
    (r = 0 <-> v <> y) /\
    (v = y -> c' = <[x := z]> c) /\
    (v <> y -> c' = c).
Proof.
  intros Hx Hv. unfold CCS_CMPSET, bind.
  rewrite (deref_ok id x v c Hx Hv).
  destruct (decide (v = y)) as [E|N].
  - rewrite (assign_ok id (fun c _ => c) x z v c Hx Hv).
    exists 1, (<[x := z]> c). unfold id. repeat split; try easy.
  - exists 0, c. repeat split; try easy.
Qed.

End AtomicFacts.

(** ** Running a computation step by step *)

Lemma bind_ok {S A B} (c : M S A) (k : A -> M S B) s a s' :
  c s = Ok a s' -> bind c k s = k a s'.
Proof. intros H. unfold bind. now rewrite H. Qed.

Lemma bind_bind {S A B C} (c : M S A) (k : A -> M S B) (k' : B -> M S C) s :
  bind (bind c k) k' s = bind c (fun a => bind (k a) k') s.
Proof. unfold bind. destruct (c s); reflexivity. Qed.

(** One step of a computation whose first operation is known to return. *)
Ltac mrun H := rewrite ?bind_bind; rewrite (bind_ok _ _ _ _ _ H); cbv beta.

(** ** Adaptive mutex and debug lock tracker *)

Section MutexFacts.
Import CInt ThreadMode Mutex.
Context {P : Platform}.

Lemma mutex_using_threads_ok (w : world P) :
  using_threads w = Ok (ccs_uses_threads (thr w)) w.
Proof. destruct w. reflexivity. Qed.

Lemma rd_ok {A} (field : service_mutex_t -> A) mutex m (w : world P) :
  mutex <> NULL -> mutexes w !! mutex = Some m ->
  rd field mutex w = Ok (field m) w.
Proof.
  intros Hx Hm. unfold rd. now rewrite (bind_ok _ _ _ _ _ (deref_ok mutexes mutex m w Hx Hm)).
Qed.

Lemma wr_ok upd mutex m (w : world P) :
  mutex <> NULL -> mutexes w !! mutex = Some m ->
  wr upd mutex w = Ok tt (set_mutexes (<[mutex := upd m]> (mutexes w)) w).
Proof.
  intros Hx Hm. unfold wr.
  rewrite (bind_ok _ _ _ _ _ (deref_ok mutexes mutex m w Hx Hm)).
  apply (assign_ok mutexes set_mutexes mutex (upd m) m w Hx Hm).
Qed.

Lemma incr_debug_ok mutex m (w : world P) :
  mutex <> NULL -> mutexes w !! mutex = Some m ->
  incr_debug mutex w =
    Ok tt (set_mutexes (<[mutex := with_debug (int (m_lock_debug m + 1)) m]> (mutexes w)) w).
Proof.
  intros Hx Hm. unfold incr_debug.
  rewrite (bind_ok _ _ _ _ _ (rd_ok m_lock_debug mutex m w Hx Hm)).
  apply wr_ok; assumption.
Qed.

Lemma decr_debug_ok mutex m (w : world P) :
  mutex <> NULL -> mutexes w !! mutex = Some m ->
  decr_debug mutex w =
    Ok tt (set_mutexes (<[mutex := with_debug (int (m_lock_debug m - 1)) m]> (mutexes w)) w).
Proof.
  intros Hx Hm. unfold decr_debug.
  rewrite (bind_ok _ _ _ _ _ (rd_ok m_lock_debug mutex m w Hx Hm)).
  apply wr_ok; assumption.
Qed.

(** After a write to [mutex] the mutex holds what was written, and a second
    write replaces the first. *)
Lemma mutexes_set_lookup mutex m (w : world P) :
  mutexes (set_mutexes (<[mutex := m]> (mutexes w)) w) !! mutex = Some m.
Proof. simpl. apply lookup_insert_eq. Qed.

Lemma set_mutexes_twice mutex m1 m2 (w : world P) :
  set_mutexes (<[mutex := m2]> (mutexes (set_mutexes (<[mutex := m1]> (mutexes w)) w)))
              (set_mutexes (<[mutex := m1]> (mutexes w)) w)
  = set_mutexes (<[mutex := m2]> (mutexes w)) w.
Proof. unfold set_mutexes. simpl. now rewrite insert_insert_eq. Qed.

(** Writes to a mutex that has just been written. *)
Lemma wr_again upd mutex m0 (w : world P) :
  mutex <> NULL ->
  wr upd mutex (set_mutexes (<[mutex := m0]> (mutexes w)) w) =
    Ok tt (set_mutexes (<[mutex := upd m0]> (mutexes w)) w).
Proof.
  intros Hx.
  rewrite (wr_ok upd mutex m0 _ Hx (mutexes_set_lookup mutex m0 w)).
  now rewrite set_mutexes_twice.
Qed.

Lemma rd_again {A} (field : service_mutex_t -> A) mutex m0 (w : world P) :
  mutex <> NULL ->
  rd field mutex (set_mutexes (<[mutex := m0]> (mutexes w)) w) =
    Ok (field m0) (set_mutexes (<[mutex := m0]> (mutexes w)) w).
Proof. intros Hx. apply rd_ok; [assumption | apply mutexes_set_lookup]. Qed.

Lemma check_locks_ok (w : world P) :
  check_locks w = Ok (service_mutex_check_locks w) w.
Proof. reflexivity. Qed.

(** The debug trylock on a valid mutex, with the world it leaves in closed
    form. *)
Lemma debug_trylock_spec_closed (w : world P) (mutex : Z) (m : service_mutex_t)
    (file : option string) (line : Z) :
  mutex <> NULL -> mutexes w !! mutex = Some m ->
  exists r w',
    service_thread_debug_trylock mutex file line w = Ok r w' /\
    (r = 0 <-> m_lock_debug m = 0) /\
    (m_lock_debug m = 0 ->
       w' = set_mutexes (<[mutex := Mtx 1 file line]> (mutexes w)) w) /\
    (m_lock_debug m <> 0 ->
       r = -1 /\
       w' = if service_mutex_check_locks w
            then set_output
                   (output w ++
                    [Msg "Warning -- during trylock, mutex already locked at %s:%d now at %s:%d"
                         [AStr file; AInt line; AStr (m_lock_file m); AInt (m_lock_line m)]])
                   w
            else w) /\
    (forall f l, CCS_THREAD_TRYLOCK debug_build mutex f l w =
                 service_thread_debug_trylock mutex (Some f) l w).
Proof.
  intros Hx Hm. unfold service_thread_debug_trylock.
  rewrite (bind_ok _ _ _ _ _ (rd_ok m_lock_debug mutex m w Hx Hm)).
  destruct (0 =? m_lock_debug m) eqn:Hd.
  - apply Z.eqb_eq in Hd.
    rewrite (bind_ok _ _ _ _ _ (incr_debug_ok mutex m w Hx Hm)).
    rewrite (bind_ok _ _ _ _ _ (wr_again _ mutex _ w Hx)).
    rewrite (bind_ok _ _ _ _ _ (wr_again _ mutex _ w Hx)).
    eexists _, _. split; [reflexivity|].
    repeat split; try congruence; try lia.
    intros _. unfold with_line, with_file, with_debug. simpl.
    rewrite <- Hd. reflexivity.
  - apply Z.eqb_neq in Hd.
    rewrite (bind_ok _ _ _ _ _ (check_locks_ok w)).
    destruct (service_mutex_check_locks w) eqn:Hc.
    + mrun (rd_ok m_lock_file mutex m w Hx Hm).
      mrun (rd_ok m_lock_line mutex m w Hx Hm).
      eexists _, _. split; [reflexivity|].
      repeat split; try congruence; try lia.
    + eexists _, _. split; [reflexivity|].
      repeat split; try congruence; try lia.
Qed.

(** C6. On a valid mutex the debug trylock returns 0 exactly when the lock
    depth was 0; in that case the mutex then holds depth 1 and the file and
    line of the caller, and the log is as it was.  Otherwise it returns -1,
    the mutex holds what it held, and the log has gained one warning when
    [service_mutex_check_locks] is set and nothing when it is not.  In both
    cases the other mutexes, the hint, the platform and the check flag are
    untouched.  In the debug build [CCS_THREAD_TRYLOCK] is this function
    called with [__FILE__] and [__LINE__]. *)
Theorem debug_trylock_spec (w : world P) (mutex : Z) (m : service_mutex_t)
    (file : option string) (line : Z) :
  mutex <> NULL -> mutexes w !! mutex = Some m ->
  exists r w',
    service_thread_debug_trylock mutex file line w = Ok r w' /\
    (r = 0 <-> m_lock_debug m = 0) /\
    (forall k, k <> mutex -> mutexes w' !! k = mutexes w !! k) /\
    thr w' = thr w /\ plat w' = plat w /\
    service_mutex_check_locks w' = service_mutex_check_locks w /\
    (m_lock_debug m = 0 ->
       mutexes w' !! mutex = Some (Mtx 1 file line) /\ output w' = output w) /\
    (m_lock_debug m <> 0 ->
       r = -1 /\
       mutexes w' !! mutex = Some m /\
       output w' =
         if service_mutex_check_locks w
         then output w ++
              [Msg "Warning -- during trylock, mutex already locked at %s:%d now at %s:%d"
                   [AStr file; AInt line; AStr (m_lock_file m); AInt (m_lock_line m)]]
         else output w) /\
    (forall f l, CCS_THREAD_TRYLOCK debug_build mutex f l w =
                 service_thread_debug_trylock mutex (Some f) l w).
Proof.
  intros Hx Hm.
  destruct (debug_trylock_spec_closed w mutex m file line Hx Hm)
    as (r & w' & Hrun & Hr & Hzero & Hheld & Hmacro).
  exists r, w'. split; [exact Hrun|]. split; [exact Hr|].
  destruct (decide (m_lock_debug m = 0)) as [Hd|Hd].
  - rewrite (Hzero Hd). cbn [mutexes thr plat service_mutex_check_locks output set_mutexes].
    split. { intros k Hk. apply lookup_insert_ne. congruence. }
    split; [reflexivity|]. split; [reflexivity|]. split; [reflexivity|].
    split. { intros _. split; [apply lookup_insert_eq | reflexivity]. }
    split; [intros Hn; contradiction | exact Hmacro].
  - destruct (Hheld Hd) as [Hr1 Hw']. rewrite Hw'.
    assert (Hsame : forall o, mutexes (set_output o w) = mutexes w) by reflexivity.
    destruct (service_mutex_check_locks w) eqn:Hc;
      cbn [mutexes thr plat service_mutex_check_locks output set_output].
    + split; [reflexivity|]. split; [reflexivity|]. split; [reflexivity|].
      split; [exact Hc|]. split; [intros Hz; contradiction|].
      split; [|exact Hmacro]. intros _. split; [exact Hr1|]. split; [exact Hm | reflexivity].
    + split; [reflexivity|]. split; [reflexivity|]. split; [reflexivity|].
      split; [exact Hc|]. split; [intros Hz; contradiction|].
      split; [|exact Hmacro]. intros _. split; [exact Hr1|]. split; [exact Hm | reflexivity].
Qed.

Lemma service_output_ok id f a (w : world P) :
  service_output id f a w = Ok tt (set_output (output w ++ [Msg f a]) w).
Proof. reflexivity. Qed.

(** The debug unlock on a valid mutex, with the world it leaves in closed
    form. *)
Lemma debug_unlock_spec_closed (w : world P) (mutex : Z) (m : service_mutex_t)
    (file : string) (line : Z) :
  mutex <> NULL -> mutexes w !! mutex = Some m ->
  exists m' out',
    CCS_THREAD_UNLOCK debug_build mutex file line w =
      Ok tt (set_output out' (set_mutexes (<[mutex := m']> (mutexes w)) w)) /\
    m_lock_debug m' = int (m_lock_debug m - 1) /\
    (- 2 ^ 31 < m_lock_debug m <= 2 ^ 31 - 1 ->
       m_lock_debug m' = m_lock_debug m - 1) /\
    (service_mutex_check_locks w = true -> m_lock_debug m' < 0 ->
       out' = output w ++
              [Msg "Warning -- mutex was double locked from %s:%d"
                   [AStr (Some file); AInt line]] /\
       m_lock_file m' = m_lock_file m /\ m_lock_line m' = m_lock_line m) /\
    (service_mutex_check_locks w = false \/ 0 <= m_lock_debug m' ->
       out' = output w /\ m_lock_file m' = None /\ m_lock_line m' = 0).
Proof.
  intros Hx Hm. unfold CCS_THREAD_UNLOCK. simpl.
  mrun (decr_debug_ok mutex m w Hx Hm).
  set (d' := int (m_lock_debug m - 1)).
  set (w1 := set_mutexes _ w).
  assert (Hsmall : - 2 ^ 31 < m_lock_debug m <= 2 ^ 31 - 1 -> d' = m_lock_debug m - 1).
  { intros Hr. apply int_small. lia. }
  assert (Hc : forall k : bool -> M (world P) unit,
             bind (and_then check_locks
                     (let* d := rd m_lock_debug mutex in ret (0 >? d))) k w1 =
             k (service_mutex_check_locks w && (d' <? 0)) w1).
  { intros k. unfold and_then. rewrite bind_bind.
    rewrite (bind_ok _ _ _ _ _ (check_locks_ok w1)). cbv beta.
    change (service_mutex_check_locks w1) with (service_mutex_check_locks w).
    destruct (service_mutex_check_locks w); [|reflexivity].
    subst w1. rewrite bind_bind.
    rewrite (bind_ok _ _ _ _ _ (rd_again m_lock_debug mutex _ w Hx)). cbv beta.
    simpl. fold d'. rewrite Z.gtb_ltb. reflexivity. }
  rewrite Hc.
  destruct (service_mutex_check_locks w && (d' <? 0)) eqn:Hb.
  - apply andb_true_iff in Hb. destruct Hb as [Hchk Hneg]. apply Z.ltb_lt in Hneg.
    rewrite service_output_ok.
    exists (with_debug d' m), (output w ++
              [Msg "Warning -- mutex was double locked from %s:%d"
                   [AStr (Some file); AInt line]]).
    split; [reflexivity|]. simpl.
    split; [reflexivity|]. split; [exact Hsmall|]. split.
    + intros _ _. repeat split.
    + intros [Hf|Hnn]; [congruence | lia].
  - rewrite Hc. subst w1.
    mrun (wr_again (with_file None) mutex (with_debug d' m) w Hx).
    rewrite (wr_again (with_line 0) mutex _ w Hx).
    exists (Mtx d' None 0), (output w).
    split.
    { destruct w; reflexivity. }
    simpl. apply andb_false_iff in Hb.
    split; [reflexivity|]. split; [exact Hsmall|]. split.
    + intros Hchk Hneg. destruct Hb as [Hb|Hb]; [congruence|].
      apply Z.ltb_ge in Hb. lia.
    + intros _. repeat split.
Qed.

(** C4, as the code has it.  On a valid mutex the debug unlock returns
    normally and the mutex then holds the lock depth decremented (as an
    [int]: exactly by one unless the depth was [INT_MIN]).  When
    [service_mutex_check_locks] is set and the resulting depth is negative,
    the log has gained the one warning [mutex was double locked] and the
    mutex holds the recorded site it held; in every other case, a negative
    depth with checking off included, the log is as it was and the mutex
    holds no recorded site.  The other mutexes, the hint, the platform and
    the check flag are untouched. *)
Theorem debug_unlock_spec (w : world P) (mutex : Z) (m : service_mutex_t)
    (file : string) (line : Z) :
  mutex <> NULL -> mutexes w !! mutex = Some m ->
  exists w' m',
    CCS_THREAD_UNLOCK debug_build mutex file line w = Ok tt w' /\
    mutexes w' !! mutex = Some m' /\
    (forall k, k <> mutex -> mutexes w' !! k = mutexes w !! k) /\
    thr w' = thr w /\ plat w' = plat w /\
    service_mutex_check_locks w' = service_mutex_check_locks w /\
    m_lock_debug m' = int (m_lock_debug m - 1) /\
    (- 2 ^ 31 < m_lock_debug m <= 2 ^ 31 - 1 ->
       m_lock_debug m' = m_lock_debug m - 1) /\
    (service_mutex_check_locks w = true -> m_lock_debug m' < 0 ->
       output w' = output w ++
                   [Msg "Warning -- mutex was double locked from %s:%d"
                        [AStr (Some file); AInt line]] /\
       m_lock_file m' = m_lock_file m /\ m_lock_line m' = m_lock_line m) /\
    (service_mutex_check_locks w = false \/ 0 <= m_lock_debug m' ->
       output w' = output w /\ m_lock_file m' = None /\ m_lock_line m' = 0).
Proof.
  intros Hx Hm.
  destruct (debug_unlock_spec_closed w mutex m file line Hx Hm)
    as (m' & out' & Hrun & Hdepth & Hexact & Hwarn & Hclear).
  eexists _, m'. split; [exact Hrun|].
  cbn [mutexes thr plat service_mutex_check_locks output set_output set_mutexes].
  split; [apply lookup_insert_eq|].
  split. { intros k Hk. apply lookup_insert_ne. congruence. }
  split; [reflexivity|]. split; [reflexivity|]. split; [reflexivity|].
  split; [exact Hdepth|]. split; [exact Hexact|]. split; [exact Hwarn | exact Hclear].
Qed.

(** The debug scoped lock, up to the point where the action starts. *)
Lemma scoped_lock_debug_prefix (w : world P) mutex m (action : M (world P) unit) file line :
  mutex <> NULL -> mutexes w !! mutex = Some m ->
  CCS_THREAD_SCOPED_LOCK debug_build mutex action file line w =
    (action ;; incr_debug mutex)
      (set_output
         (if 0 =? m_lock_debug m then output w
          else output w ++
               [Msg "scoped_lock: Warning -- mutex already locked at %s:%d, now at %s:%d"
                    [AStr (Some file); AInt line;
                     AStr (m_lock_file m); AInt (m_lock_line m)]])
         (set_mutexes (<[mutex := with_debug (int (m_lock_debug m - 1)) m]> (mutexes w)) w)).
Proof.
  intros Hx Hm. unfold CCS_THREAD_SCOPED_LOCK, debug_build.
  cbn [CCS_ENABLE_MULTI_THREADS CCS_ENABLE_DEBUG].
  mrun (rd_ok m_lock_debug mutex m w Hx Hm).
  destruct (0 =? m_lock_debug m); cbn [negb].
  - mrun (eq_refl : ret tt w = Ok tt w).
    mrun (decr_debug_ok mutex m w Hx Hm).
    destruct w; reflexivity.
  - mrun (rd_ok m_lock_file mutex m w Hx Hm).
    mrun (rd_ok m_lock_line mutex m w Hx Hm).
    mrun (service_output_ok 0
            "scoped_lock: Warning -- mutex already locked at %s:%d, now at %s:%d"
            [AStr (Some file); AInt line; AStr (m_lock_file m); AInt (m_lock_line m)] w).
    match goal with
    | |- bind _ _ ?w1 = _ =>
        assert (Hm1 : mutexes w1 !! mutex = Some m) by exact Hm;
        mrun (decr_debug_ok mutex m w1 Hx Hm1)
    end.
    destruct w; reflexivity.
Qed.

(** C5, what the code does.  In the debug build the scoped lock decrements
    the lock depth before the action and increments it after: from a depth
    [d] above [INT_MIN] the action starts in a world where the depth of the
    mutex is [d - 1], which is not the [d + 1] a lock would leave; when the
    action returns without touching the mutex, the macro returns with the
    mutex as it was, so the depth is again [d]. *)
Theorem scoped_lock_debug_depth (w : world P) (mutex : Z) (m : service_mutex_t)
    (action : M (world P) unit) (file : string) (line : Z) :
  mutex <> NULL -> mutexes w !! mutex = Some m ->
  - 2 ^ 31 < m_lock_debug m <= 2 ^ 31 - 1 ->
  exists w1,
    CCS_THREAD_SCOPED_LOCK debug_build mutex action file line w =
      (action ;; incr_debug mutex) w1 /\
    mutexes w1 !! mutex = Some (with_debug (m_lock_debug m - 1) m) /\
    m_lock_debug m - 1 <> m_lock_debug m + 1 /\
    forall w2, action w1 = Ok tt w2 ->
      mutexes w2 !! mutex = mutexes w1 !! mutex ->
      exists w3,
        CCS_THREAD_SCOPED_LOCK debug_build mutex action file line w = Ok tt w3 /\
        mutexes w3 !! mutex = Some m.
Proof.
  intros Hx Hm Hr.
  rewrite (scoped_lock_debug_prefix w mutex m action file line Hx Hm).
  assert (Hd : int (m_lock_debug m - 1) = m_lock_debug m - 1) by (apply int_small; lia).
  rewrite Hd.
  eexists. split; [reflexivity|]. split; [apply lookup_insert_eq|]. split; [lia|].
  intros w2 Hact Hsame.
  rewrite (bind_ok _ _ _ _ _ Hact).
  assert (Hm2 : mutexes w2 !! mutex = Some (with_debug (m_lock_debug m - 1) m)).
  { rewrite Hsame. apply lookup_insert_eq. }
  rewrite (incr_debug_ok mutex _ w2 Hx Hm2).
  eexists. split; [reflexivity|].
  simpl. rewrite lookup_insert_eq. f_equal.
  destruct m as [d f l]. unfold with_debug. simpl.
  replace (d - 1 + 1) with d by lia.
  rewrite int_small by (simpl in Hr; lia). reflexivity.
Qed.

(** In the threaded build with the hint false no call touches the world. *)
Lemma perform_elided (b : build) (c : call) (w : world P) :
  CCS_ENABLE_MULTI_THREADS b = true -> ccs_uses_threads (thr w) = false ->
  perform b c w = Ok tt w.
Proof.
  intros Hb Hf.
  destruct c; simpl; unfold CCS_THREAD_LOCK, CCS_THREAD_UNLOCK; rewrite Hb;
    rewrite (bind_ok _ _ _ _ _ (mutex_using_threads_ok w)), Hf; reflexivity.
Qed.

Lemma run_elided (b : build) (cs : list call) (w : world P) :
  CCS_ENABLE_MULTI_THREADS b = true -> ccs_uses_threads (thr w) = false ->
  run b cs w = Ok tt w.
Proof.
  intros Hb Hf. induction cs as [|c cs IH]; simpl.
  - reflexivity.
  - rewrite (bind_ok _ _ _ _ _ (perform_elided b c w Hb Hf)). exact IH.
Qed.

End MutexFacts.

(** C8. In a build with thread support, while [ccs_using_threads()] is
    false, [CCS_THREAD_LOCK] and [CCS_THREAD_UNLOCK] return with the world
    exactly as it was, for every platform mutex, every mutex pointer and
    every sequence of calls: the state of the platform and of the mutexes
    is untouched.  With the platform replaced by the double that records
    every call it receives, the record after the sequence is the record
    before it, so no primitive was invoked. *)
Theorem thread_lock_unlock_elided (b : build) (cs : list Mutex.call) :
  CCS_ENABLE_MULTI_THREADS b = true ->
  (forall (P : Mutex.Platform) (w : Mutex.world P),
     ThreadMode.ccs_uses_threads (Mutex.thr w) = false ->
     Mutex.run b cs w = Ok tt w /\
     forall mutex file line,
       Mutex.CCS_THREAD_LOCK b mutex file line w = Ok tt w /\
       Mutex.CCS_THREAD_UNLOCK b mutex file line w = Ok tt w) /\
  (forall (w : Mutex.world Mutex.recorder),
     ThreadMode.ccs_uses_threads (Mutex.thr w) = false ->
     exists w', Mutex.run b cs w = Ok tt w' /\
                Mutex.plat w' = Mutex.plat w /\ Mutex.mutexes w' = Mutex.mutexes w).
Proof.
  intros Hb. split.
  - intros P w Hf. split.
    + apply run_elided; assumption.
    + intros mutex file line. split.
      * apply (perform_elided b (Mutex.Lock mutex file line) w Hb Hf).
      * apply (perform_elided b (Mutex.Unlock mutex file line) w Hb Hf).
  - intros w Hf. exists w. split; [apply run_elided; assumption|]. split; reflexivity.
Qed.

(** ** Reference-counted singleton guard *)

Section DatatypeFacts.
Import CInt Datatype.
Variables CCS_DATATYPE_FLAG_PREDEFINED CCS_SUCCESS CCS_ERROR : Z.

Local Abbreviation destroy :=
  (service_datatype_destroy CCS_DATATYPE_FLAG_PREDEFINED CCS_SUCCESS CCS_ERROR).
Local Abbreviation predefined := (is_predefined CCS_DATATYPE_FLAG_PREDEFINED).

(** The world the release operation leaves for an object [o] at [p]. *)
Lemma OBJ_RELEASE_ok (w : world) p o :
  p <> NULL -> objects w !! p = Some o ->
  OBJ_RELEASE p w =
    let c := conv Int32 (obj_reference_count o + -1) in
    Ok tt (World (handles w)
                 (if 0 =? c then delete p (objects w)
                  else <[p := with_count c o]> (objects w))
                 (released w ++ [p])
                 (if 0 =? c then freed w ++ [p] else freed w)).
Proof.
  intros Hp Ho. unfold OBJ_RELEASE.
  mrun (deref_ok objects p o w Hp Ho).
  mrun (eq_refl : modify (fun w => World (handles w) (objects w) (released w ++ [p]) (freed w)) w
                  = Ok tt (World (handles w) (objects w) (released w ++ [p]) (freed w))).
  match goal with
  | |- bind (assign _ _ _ ?v) _ ?w1 = _ =>
      mrun (assign_ok objects set_objects p v o w1 Hp Ho)
  end.
  cbv zeta. destruct (0 =? conv Int32 (obj_reference_count o + -1)).
  - unfold modify, set_objects. simpl. now rewrite delete_insert_eq.
  - reflexivity.
Qed.

(** The whole of destroy on a valid handle to a live object. *)
Lemma destroy_eval (w : world) dt p o :
  dt <> NULL -> handles w !! dt = Some p ->
  p <> NULL -> objects w !! p = Some o ->
  destroy dt w =
    if predefined o && (obj_reference_count o <=? 1)
    then Ok CCS_ERROR w
    else
      let c := conv Int32 (obj_reference_count o + -1) in
      Ok CCS_SUCCESS
         (World (<[dt := NULL]> (handles w))
                (if 0 =? c then delete p (objects w)
                 else <[p := with_count c o]> (objects w))
                (released w ++ [p])
                (if 0 =? c then freed w ++ [p] else freed w)).
Proof.
  intros Hdt Hh Hp Ho. unfold service_datatype_destroy, and_then.
  mrun (deref_ok handles dt p w Hdt Hh).
  mrun (deref_ok objects p o w Hp Ho).
  mrun (eq_refl : ret (negb (Z.land (flags o) CCS_DATATYPE_FLAG_PREDEFINED =? 0)) w
                  = Ok (predefined o) w).
  destruct (predefined o); cbn [andb].
  - mrun (deref_ok objects p o w Hp Ho).
    mrun (eq_refl : ret (obj_reference_count o <=? 1) w
                    = Ok (obj_reference_count o <=? 1) w).
    destruct (obj_reference_count o <=? 1); [reflexivity|].
    mrun (OBJ_RELEASE_ok w p o Hp Ho). cbv zeta.
    match goal with
    | |- bind (assign _ _ _ _) _ ?w1 = _ =>
        mrun (assign_ok handles set_handles dt NULL p w1 Hdt Hh)
    end.
    reflexivity.
  - mrun (eq_refl : ret false w = Ok false w).
    mrun (OBJ_RELEASE_ok w p o Hp Ho). cbv zeta.
    match goal with
    | |- bind (assign _ _ _ _) _ ?w1 = _ =>
        mrun (assign_ok handles set_handles dt NULL p w1 Hdt Hh)
    end.
    reflexivity.
Qed.

(** C1. On a predefined object whose reference count is at most 1, destroy
    returns [CCS_ERROR] and the world is the one it started in: the count
    of the object and the handle of the caller, which still points to the
    object, are as they were, and nothing was released. *)
Theorem destroy_predefined_floor (w : world) (dt p : Z) (o : service_datatype_t) :
  dt <> NULL -> handles w !! dt = Some p ->
  p <> NULL -> objects w !! p = Some o ->
  predefined o = true -> obj_reference_count o <= 1 ->
  destroy dt w = Ok CCS_ERROR w.
Proof.
  intros Hdt Hh Hp Ho Hpre Hrc.
  rewrite (destroy_eval w dt p o Hdt Hh Hp Ho), Hpre.
  apply Z.leb_le in Hrc. now rewrite Hrc.
Qed.

(** A destroy that releases, with the world it leaves in closed form. *)
Lemma destroy_releases_closed (w : world) (dt p : Z) (o : service_datatype_t) :
  dt <> NULL -> handles w !! dt = Some p ->
  p <> NULL -> objects w !! p = Some o ->
  ~ (predefined o = true /\ obj_reference_count o <= 1) ->
  - 2 ^ 31 < obj_reference_count o <= 2 ^ 31 - 1 ->
  exists w',
    destroy dt w = Ok CCS_SUCCESS w' /\
    handles w' = <[dt := NULL]> (handles w) /\
    released w' = released w ++ [p] /\
    (obj_reference_count o - 1 = 0 ->
       objects w' = delete p (objects w) /\ freed w' = freed w ++ [p]) /\
    (obj_reference_count o - 1 <> 0 ->
       objects w' = <[p := with_count (obj_reference_count o - 1) o]> (objects w) /\
       freed w' = freed w).
Proof.
  intros Hdt Hh Hp Ho Hnot Hr.
  rewrite (destroy_eval w dt p o Hdt Hh Hp Ho).
  assert (Hc : predefined o && (obj_reference_count o <=? 1) = false).
  { apply not_true_is_false. intros Hb. apply andb_true_iff in Hb.
    destruct Hb as [H1 H2]. apply Z.leb_le in H2. apply Hnot. split; assumption. }
  rewrite Hc. cbv zeta.
  replace (obj_reference_count o + -1) with (obj_reference_count o - 1) by lia.
  rewrite (conv_in_range Int32 (obj_reference_count o - 1)) by (unfold in_range; simpl; lia).
  eexists. split; [reflexivity|]. cbn [handles released objects freed].
  split; [reflexivity|]. split; [reflexivity|].
  destruct (0 =? obj_reference_count o - 1) eqn:E.
  - apply Z.eqb_eq in E. split; [intros _; split; reflexivity | lia].
  - apply Z.eqb_neq in E. split; [lia | intros _; split; reflexivity].
Qed.

(** C2. On every other object, that is one that is not predefined or whose
    count is above 1, destroy returns [CCS_SUCCESS], hands the object to the
    release operation exactly once, and leaves [NULL] in the handle; the
    other handles and the other objects are untouched.  For an [int32_t]
    count above [INT32_MIN] the release lowers the count by one: when the
    new count is 0 the object is freed and no longer allocated, otherwise
    it stays allocated, with the same flags and the count one lower, and
    nothing is freed. *)
Theorem destroy_releases (w : world) (dt p : Z) (o : service_datatype_t) :
  dt <> NULL -> handles w !! dt = Some p ->
  p <> NULL -> objects w !! p = Some o ->
  ~ (predefined o = true /\ obj_reference_count o <= 1) ->
  - 2 ^ 31 < obj_reference_count o <= 2 ^ 31 - 1 ->
  exists w',
    destroy dt w = Ok CCS_SUCCESS w' /\
    handles w' !! dt = Some NULL /\
    (forall dt', dt' <> dt -> handles w' !! dt' = handles w !! dt') /\
    released w' = released w ++ [p] /\
    (forall q, q <> p -> objects w' !! q = objects w !! q) /\
    (obj_reference_count o - 1 = 0 ->
       objects w' !! p = None /\ freed w' = freed w ++ [p]) /\
    (obj_reference_count o - 1 <> 0 ->
       (exists o',
          objects w' !! p = Some o' /\
          obj_reference_count o' = obj_reference_count o - 1 /\
          flags o' = flags o) /\
       freed w' = freed w).
Proof.
  intros Hdt Hh Hp Ho Hnot Hr.
  destruct (destroy_releases_closed w dt p o Hdt Hh Hp Ho Hnot Hr)
    as (w' & Hrun & Hhandles & Hrel & Hzero & Hmore).
  exists w'. split; [exact Hrun|].
  split. { rewrite Hhandles. apply lookup_insert_eq. }
  split. { intros dt' Hne. rewrite Hhandles. apply lookup_insert_ne. congruence. }
  split; [exact Hrel|].
  split.
  { intros q Hq. destruct (decide (obj_reference_count o - 1 = 0)) as [Hz|Hnz].
    - destruct (Hzero Hz) as [-> _]. apply lookup_delete_ne. congruence.
    - destruct (Hmore Hnz) as [-> _]. apply lookup_insert_ne. congruence. }
  split.
  - intros Hz. destruct (Hzero Hz) as [Hobj Hfr]. split; [|exact Hfr].
    rewrite Hobj. apply lookup_delete_eq.
  - intros Hnz. destruct (Hmore Hnz) as [Hobj Hfr]. split; [|exact Hfr].
    exists (with_count (obj_reference_count o - 1) o).
    split; [rewrite Hobj; apply lookup_insert_eq|]. split; reflexivity.
Qed.

(** C10. Destroy reads [*dt] and then [( *dt)->flags] before it decides
    anything: with [dt] null, or with [*dt] null, it faults on a null
    dereference whatever the object is.  With [dt] and [*dt] both non-null
    no null dereference occurs, and when [*dt] is a live object destroy
    returns on either branch, with [CCS_ERROR] or [CCS_SUCCESS]. *)
Theorem destroy_null_safety (w : world) (dt : Z) :
  (dt = NULL -> destroy dt w = Fault NullDeref) /\
  (dt <> NULL -> handles w !! dt = Some NULL -> destroy dt w = Fault NullDeref) /\
  (forall p, dt <> NULL -> handles w !! dt = Some p -> p <> NULL ->
     destroy dt w <> Fault NullDeref) /\
  (forall p o, dt <> NULL -> handles w !! dt = Some p ->
     p <> NULL -> objects w !! p = Some o ->
     exists r w', destroy dt w = Ok r w' /\
       (r = CCS_ERROR /\ w' = w \/
        r = CCS_SUCCESS /\ handles w' !! dt = Some NULL)).
Proof.
  assert (Hlive : forall p o, dt <> NULL -> handles w !! dt = Some p ->
     p <> NULL -> objects w !! p = Some o ->
     exists r w', destroy dt w = Ok r w' /\
       (r = CCS_ERROR /\ w' = w \/
        r = CCS_SUCCESS /\ handles w' !! dt = Some NULL)).
  { intros p o Hdt Hh Hp Ho. rewrite (destroy_eval w dt p o Hdt Hh Hp Ho).
    destruct (predefined o && (obj_reference_count o <=? 1)).
    - eexists _, _. split; [reflexivity|]. left. split; reflexivity.
    - eexists _, _. split; [reflexivity|]. right. split; [reflexivity|].
      simpl. apply lookup_insert_eq. }
  split; [|split; [|split]].
  - intros ->. unfold service_datatype_destroy, bind. now rewrite deref_null.
  - intros Hdt Hh. unfold service_datatype_destroy, and_then.
    mrun (deref_ok handles dt NULL w Hdt Hh).
    unfold bind. now rewrite deref_null.
  - intros p Hdt Hh Hp.
    destruct (objects w !! p) as [o|] eqn:Ho.
    + destruct (Hlive p o Hdt Hh Hp Ho) as (r & w' & E & _). rewrite E. discriminate.
    + unfold service_datatype_destroy, and_then.
      mrun (deref_ok handles dt p w Hdt Hh).
      unfold bind, deref. destruct (decide (p = NULL)); [contradiction|].
      rewrite Ho. discriminate.
  - exact Hlive.
Qed.

End DatatypeFacts.

(** ** The properties at the sample worlds *)

Section Instances.
Import CInt ThreadMode Sample.

Ltac not_null := unfold NULL; lia.

(** Scenario A: a predefined object with count 1 is refused and kept. *)
Lemma destroy_predefined_floor_witness :
  Datatype.service_datatype_destroy FLAG_PREDEFINED SUCCESS ERROR 100
    (datatype_world predefined_1) = Ok ERROR (datatype_world predefined_1).
Proof.
  apply (destroy_predefined_floor FLAG_PREDEFINED SUCCESS ERROR
           (datatype_world predefined_1) 100 200 predefined_1);
    [not_null | reflexivity | not_null | reflexivity | reflexivity | simpl; lia].
Defined.

(** A predefined object with count 2 is released once and stays allocated
    with count 1, and the handle is null. *)
Lemma destroy_releases_witness :
  exists w' o',
    Datatype.service_datatype_destroy FLAG_PREDEFINED SUCCESS ERROR 100
      (datatype_world predefined_2) = Ok SUCCESS w' /\
    Datatype.handles w' !! 100 = Some NULL /\
    Datatype.released w' = [200] /\
    Datatype.objects w' !! 200 = Some o' /\
    Datatype.obj_reference_count o' = 1 /\
    Datatype.freed w' = [].
Proof.
  destruct (destroy_releases FLAG_PREDEFINED SUCCESS ERROR
              (datatype_world predefined_2) 100 200 predefined_2)
    as (w' & Hrun & Hnull & _ & Hrel & _ & _ & Hkeep);
    [not_null | reflexivity | not_null | reflexivity
    | intros [_ Hc]; simpl in Hc; lia | simpl; lia |].
  destruct Hkeep as [(o' & Ho' & Hcount & _) Hfr]; [simpl; lia|].
  exists w', o'. split; [exact Hrun|]. split; [exact Hnull|]. split; [exact Hrel|].
  split; [exact Ho'|]. split; [exact Hcount | exact Hfr].
Defined.

(** Scenario B: a predefined object with count 2 is released once, keeps
    count 1 and stays allocated. *)
Example destroy_predefined_shared :
  Datatype.service_datatype_destroy FLAG_PREDEFINED SUCCESS ERROR 100
    (datatype_world predefined_2)
  = Ok SUCCESS (Datatype.World {[100 := NULL]} {[200 := predefined_1]} [200] []).
Proof. vm_compute. reflexivity. Qed.

Lemma destroy_null_safety_witness :
  Datatype.service_datatype_destroy FLAG_PREDEFINED SUCCESS ERROR NULL
    (datatype_world predefined_1) = Fault NullDeref /\
  Datatype.service_datatype_destroy FLAG_PREDEFINED SUCCESS ERROR 100
    (datatype_world predefined_1) <> Fault NullDeref.
Proof.
  destruct (destroy_null_safety FLAG_PREDEFINED SUCCESS ERROR
              (datatype_world predefined_1) NULL) as (Hnull & _).
  destruct (destroy_null_safety FLAG_PREDEFINED SUCCESS ERROR
              (datatype_world predefined_1) 100) as (_ & _ & Hsafe & _).
  split.
  - apply Hnull. reflexivity.
  - apply (Hsafe 200); [not_null | reflexivity | not_null].
Defined.

Lemma cmpset_spec_witness :
  exists r c',
    Atomic.CCS_CMPSET 8 41 7 ({[8 := 41]} : gmap Z Z) = Ok r c' /\
    (r = 1 <-> 41 = 41) /\
    (r = 0 <-> 41 <> 41) /\
    (41 = 41 -> c' = <[8 := 7]> {[8 := 41]}) /\
    (41 <> 41 -> c' = {[8 := 41]}).
Proof.
  apply (cmpset_spec ({[8 := 41]} : gmap Z Z) 8 41 7 41); [not_null | reflexivity].
Defined.

Lemma thread_add_fallback_as_atomic_witness :
  exists w',
    Atomic.CCS_THREAD_ADD Int32 threaded_build 8 1 counter_world =
      Ok (conv Int32 (41 + 1)) w' /\
    Atomic.service_atomic_add Int32 8 1 counter_world = Ok (conv Int32 (41 + 1)) w' /\
    Atomic.cells w' !! 8 = Some (conv Int32 (41 + 1)) /\
    conv Int32 (41 + 1) = 41 + 1.
Proof.
  destruct (thread_add_fallback_as_atomic Int32 threaded_build 8 1 counter_world)
    as (_ & _ & Hval); [reflexivity|].
  destruct (Hval 41) as (w' & Hrun & Hatomic & Hcell & _ & _ & Hfit);
    [not_null | reflexivity |].
  exists w'. split; [exact Hrun|]. split; [exact Hatomic|]. split; [exact Hcell|].
  apply Hfit. unfold in_range. simpl. lia.
Defined.

Lemma debug_trylock_spec_witness :
  exists r w',
    Mutex.service_thread_debug_trylock 1 (Some "b.c"%string) 20
      (mutex_world true unlocked) = Ok r w' /\
    r = 0 /\
    Mutex.mutexes w' !! 1 = Some (Mutex.Mtx 1 (Some "b.c"%string) 20) /\
    Mutex.output w' = [].
Proof.
  destruct (debug_trylock_spec (mutex_world true unlocked) 1 unlocked
              (Some "b.c"%string) 20)
    as (r & w' & Hrun & Hr & _ & _ & _ & _ & Hzero & _); [not_null | reflexivity |].
  destruct (Hzero eq_refl) as [Hmutex Hout].
  exists r, w'. split; [exact Hrun|]. split; [apply Hr; reflexivity|].
  split; [exact Hmutex | exact Hout].
Defined.

(** An unlock of a mutex nobody holds, with checking on: depth -1, one
    warning, the site kept. *)
Lemma debug_unlock_spec_witness :
  exists w' m',
    Mutex.CCS_THREAD_UNLOCK debug_build 1 "b.c" 20
      (mutex_world true (Mutex.Mtx 0 (Some "a.c"%string) 10)) = Ok tt w' /\
    Mutex.mutexes w' !! 1 = Some m' /\
    Mutex.m_lock_debug m' = -1 /\
    Mutex.output w' =
      [Mutex.Msg "Warning -- mutex was double locked from %s:%d"
         [Mutex.AStr (Some "b.c"%string); Mutex.AInt 20]] /\
    Mutex.m_lock_file m' = Some "a.c"%string /\ Mutex.m_lock_line m' = 10.
Proof.
  destruct (debug_unlock_spec (mutex_world true (Mutex.Mtx 0 (Some "a.c"%string) 10))
              1 (Mutex.Mtx 0 (Some "a.c"%string) 10) "b.c" 20)
    as (w' & m' & Hrun & Hmutex & _ & _ & _ & _ & _ & Hexact & Hwarn & _);
    [not_null | reflexivity |].
  assert (Hd : Mutex.m_lock_debug m' = -1) by (apply Hexact; simpl; lia).
  destruct (Hwarn eq_refl) as (Hout & Hfile & Hline); [rewrite Hd; lia|].
  exists w', m'. split; [exact Hrun|]. split; [exact Hmutex|]. split; [exact Hd|].
  split; [exact Hout|]. split; [exact Hfile | exact Hline].
Defined.

(** C4 as stated fails.  With [service_mutex_check_locks] off, unlocking a
    mutex of depth 0 leaves the depth at -1, yet nothing is written to the
    log and the recorded site is cleared. *)
Lemma debug_unlock_unchecked_silent :
  exists w' m',
    Mutex.CCS_THREAD_UNLOCK debug_build 1 "b.c" 20 (mutex_world false (Mutex.Mtx 0 (Some "a.c"%string) 10))
      = Ok tt w' /\
    Mutex.mutexes w' !! 1 = Some m' /\
    Mutex.m_lock_debug m' < 0 /\
    Mutex.output w' = Mutex.output (mutex_world false (Mutex.Mtx 0 (Some "a.c"%string) 10)) /\
    Mutex.m_lock_file m' = None /\ Mutex.m_lock_line m' = 0.
Proof.
  exists (mutex_world false (Mutex.Mtx (-1) None 0)), (Mutex.Mtx (-1) None 0).
  split; [vm_compute; reflexivity|].
  split; [vm_compute; reflexivity|].
  split; [simpl; lia|].
  repeat split.
Qed.

Lemma scoped_lock_debug_depth_witness :
  exists w1,
    Mutex.CCS_THREAD_SCOPED_LOCK debug_build 1 (ret tt) "b.c" 20 (mutex_world true unlocked)
      = (ret tt ;; Mutex.incr_debug 1) w1 /\
    Mutex.mutexes w1 !! 1 = Some (Mutex.Mtx (-1) None 0).
Proof.
  destruct (scoped_lock_debug_depth (mutex_world true unlocked) 1 unlocked
              (ret tt) "b.c" 20)
    as (w1 & Hrun & Hdepth & _); [not_null | reflexivity | simpl; lia |].
  exists w1. split; [exact Hrun | exact Hdepth].
Defined.

Lemma thread_lock_unlock_elided_witness :
  exists w',
    Mutex.run threaded_build [Mutex.Lock 1 "a.c" 10; Mutex.Unlock 1 "a.c" 12]
      (mutex_world true unlocked) = Ok tt w' /\
    Mutex.plat w' = [] /\ Mutex.mutexes w' = {[1 := unlocked]}.
Proof.
  destruct (thread_lock_unlock_elided threaded_build
              [Mutex.Lock 1 "a.c" 10; Mutex.Unlock 1 "a.c" 12] eq_refl)
    as [_ Hrec].
  apply (Hrec (mutex_world true unlocked)). reflexivity.
Defined.

End Instances.

(** * Further properties of the layer *)

(** ** Thread-mode flag *)

Section ThreadModeSequences.
Import ThreadMode.

Lemma set_using_threads_eval b have g :
  ccs_set_using_threads b have g =
    Ok (CCS_ENABLE_MULTI_THREADS b && have)
       (Globals (CCS_ENABLE_MULTI_THREADS b && have)).
Proof.
  unfold ccs_set_using_threads. destruct (CCS_ENABLE_MULTI_THREADS b); reflexivity.
Qed.

(** X1. After any sequence of calls of [ccs_set_using_threads] that is not
    empty, [ccs_using_threads()] returns the value asked for by the last
    call when the build has thread support, and [false] when it has none,
    whatever the flag held before and whatever was asked for. *)
Theorem set_each_last (b : build) (haves : list bool) (g : globals) :
  haves <> [] ->
  bind (set_each b haves) (fun _ => ccs_using_threads) g =
    Ok (CCS_ENABLE_MULTI_THREADS b && List.last haves false)
       (Globals (CCS_ENABLE_MULTI_THREADS b && List.last haves false)).
Proof.
  revert g. induction haves as [|h rest IH]; intros g Hne; [contradiction|].
  cbn [set_each]. rewrite bind_bind.
  rewrite (bind_ok _ _ _ _ _ (set_using_threads_eval b h g)).
  destruct rest as [|h' rest'].
  - reflexivity.
  - rewrite IH by discriminate. reflexivity.
Qed.

End ThreadModeSequences.

Lemma set_each_last_witness :
  bind (ThreadMode.set_each plain_build [true; true])
       (fun _ => ThreadMode.ccs_using_threads) (ThreadMode.Globals true)
  = Ok false (ThreadMode.Globals false).
Proof.
  apply (set_each_last plain_build [true; true] (ThreadMode.Globals true)).
  discriminate.
Defined.

(** ** Atomic fallback *)

Section AtomicSequences.
Import CInt ThreadMode Atomic.

Lemma wrap_signed_add_l w a b :
  wrap_signed w (wrap_signed w a + b) = wrap_signed w (a + b).
Proof.
  unfold wrap_signed. f_equal.
  replace ((a + 2 ^ (w - 1)) mod 2 ^ w - 2 ^ (w - 1) + b + 2 ^ (w - 1))
    with ((a + 2 ^ (w - 1)) mod 2 ^ w + b) by lia.
  rewrite Zplus_mod_idemp_l. f_equal. lia.
Qed.

Lemma conv_add_l t a b : conv t (conv t a + b) = conv t (a + b).
Proof.
  destruct t; simpl.
  - apply wrap_signed_add_l.
  - apply wrap_signed_add_l.
  - unfold wrap_unsigned. apply Zplus_mod_idemp_l.
Qed.

(** The plain path of the add macros at a valid pointer. *)
Lemma thread_add_eval t b x y v w :
  ccs_uses_threads (thr w) = false ->
  x <> NULL -> cells w !! x = Some v ->
  CCS_THREAD_ADD t b x y w =
    Ok (conv t (v + y)) (set_cells (<[x := conv t (v + y)]> (cells w)) w).
Proof.
  intros Hf Hx Hv. rewrite (thread_add_fallback t b x y w Hf).
  apply add_assign_ok; assumption.
Qed.

Lemma set_cells_twice x v1 v2 w :
  set_cells (<[x := v2]> (cells (set_cells (<[x := v1]> (cells w)) w)))
            (set_cells (<[x := v1]> (cells w)) w)
  = set_cells (<[x := v2]> (cells w)) w.
Proof. unfold set_cells. simpl. now rewrite insert_insert_eq. Qed.

(** X2. With the hint false, two adds on the same object, of [a] and then
    of [c], leave the memory and return the value that the single add of
    [a + c] does, at each of the three types and in every build, also when
    the first sum wraps around. *)
Theorem thread_add_twice (t : ctype) (b : build) (x a c v : Z) (w : world) :
  ccs_uses_threads (thr w) = false ->
  x <> NULL -> cells w !! x = Some v ->
  bind (CCS_THREAD_ADD t b x a) (fun _ => CCS_THREAD_ADD t b x c) w =
    CCS_THREAD_ADD t b x (a + c) w.
Proof.
  intros Hf Hx Hv.
  rewrite (bind_ok _ _ _ _ _ (thread_add_eval t b x a v w Hf Hx Hv)).
  rewrite (thread_add_eval t b x c (conv t (v + a))
             (set_cells (<[x := conv t (v + a)]> (cells w)) w)
             Hf Hx (lookup_insert_eq _ _ _)).
  rewrite (thread_add_eval t b x (a + c) v w Hf Hx Hv).
  rewrite set_cells_twice, conv_add_l.
  now replace (v + a + c) with (v + (a + c)) by lia.
Qed.

(** X3. With the hint false, an add of [y] followed by an add of [-y] on an
    object that holds a value of its type returns that value and leaves the
    world as it was before the two adds, also when the sum in between wraps
    around. *)
Theorem thread_add_undo (t : ctype) (b : build) (x y v : Z) (w : world) :
  ccs_uses_threads (thr w) = false ->
  x <> NULL -> cells w !! x = Some v -> in_range t v ->
  bind (CCS_THREAD_ADD t b x y) (fun _ => CCS_THREAD_ADD t b x (- y)) w = Ok v w.
Proof.
  intros Hf Hx Hv Hr.
  rewrite (bind_ok _ _ _ _ _ (thread_add_eval t b x y v w Hf Hx Hv)).
  rewrite (thread_add_eval t b x (- y) (conv t (v + y))
             (set_cells (<[x := conv t (v + y)]> (cells w)) w)
             Hf Hx (lookup_insert_eq _ _ _)).
  rewrite set_cells_twice, conv_add_l.
  replace (v + y + - y) with v by lia.
  rewrite (conv_in_range t v Hr).
  rewrite (insert_id (cells w) x v Hv). destruct w; reflexivity.
Qed.

(** X4. Whenever one of the add macros returns, on either path, the value
    it returns is a value of the type of the object, it is the value now
    stored in the object, and every other object and the flag are as they
    were. *)
Theorem thread_add_frame (t : ctype) (b : build) (x y r : Z) (w w' : world) :
  CCS_THREAD_ADD t b x y w = Ok r w' ->
  in_range t r /\
  cells w' !! x = Some r /\
  (forall x', x' <> x -> cells w' !! x' = cells w !! x') /\
  thr w' = thr w.
Proof.
  intros Hrun.
  assert (Hall : CCS_THREAD_ADD t b x y w = add_assign t x y w).
  { destruct (ccs_uses_threads (thr w)) eqn:Hf.
    - destruct t; simpl;
        unfold CCS_THREAD_ADD32, CCS_THREAD_ADD64, CCS_THREAD_ADD_SIZE_T;
        (destruct (CCS_ENABLE_MULTI_THREADS b); [|reflexivity]);
        rewrite (bind_ok _ _ _ _ _ (using_threads_ok w)), Hf;
        symmetry; apply add_assign_atomic.
    - apply thread_add_fallback. exact Hf. }
  rewrite Hall in Hrun.
  destruct (decide (x = NULL)) as [->|Hx].
  { unfold add_assign, bind in Hrun. rewrite deref_null in Hrun. discriminate. }
  destruct (cells w !! x) as [v|] eqn:Hv.
  - rewrite (add_assign_ok t x y v w Hx Hv) in Hrun.
    injection Hrun as <- <-. split; [apply conv_range|]. split.
    + simpl. apply lookup_insert_eq.
    + split; [|reflexivity]. intros x' Hne. simpl. now apply lookup_insert_ne.
  - unfold add_assign, bind, deref in Hrun.
    destruct (decide (x = NULL)); [contradiction|]. rewrite Hv in Hrun. discriminate.
Qed.

(** [CCS_CMPSET] at a valid pointer. *)
Lemma cmpset_eval {V : Type} `{EqDecision V} (c : gmap Z V) (x : Z) (y z v : V) :
  x <> NULL -> c !! x = Some v ->
  CCS_CMPSET x y z c = if decide (v = y) then Ok 1 (<[x := z]> c) else Ok 0 c.
Proof.
  intros Hx Hv. unfold CCS_CMPSET.
  rewrite (bind_ok _ _ _ _ _ (deref_ok id x v c Hx Hv)).
  destruct (decide (v = y)); [|reflexivity].
  now rewrite (bind_ok _ _ _ _ _ (assign_ok id (fun c _ => c) x z v c Hx Hv)).
Qed.

(** X5. Of two [CCS_CMPSET(x, y, z)] made one after the other with [z]
    different from [y] on an object that holds [y], the first evaluates to
    1 and the second to 0, and the object holds [z] after both. *)
Theorem cmpset_single_winner {V : Type} `{EqDecision V}
    (c : gmap Z V) (x : Z) (y z : V) :
  x <> NULL -> c !! x = Some y -> z <> y ->
  CCS_CMPSET x y z c = Ok 1 (<[x := z]> c) /\
  CCS_CMPSET x y z (<[x := z]> c) = Ok 0 (<[x := z]> c).
Proof.
  intros Hx Hv Hne. split.
  - rewrite (cmpset_eval c x y z y Hx Hv).
    destruct (decide (y = y)); [reflexivity|contradiction].
  - rewrite (cmpset_eval (<[x := z]> c) x y z z Hx (lookup_insert_eq _ _ _)).
    destruct (decide (z = y)); [contradiction|reflexivity].
Qed.

(** X6. On an object that holds [a], [CCS_CMPSET(x, a, b)] followed by
    [CCS_CMPSET(x, b, a)] evaluates to 1 both times and leaves the memory as
    it was. *)
Theorem cmpset_swap_back {V : Type} `{EqDecision V}
    (c : gmap Z V) (x : Z) (a b : V) :
  x <> NULL -> c !! x = Some a ->
  exists c1,
    CCS_CMPSET x a b c = Ok 1 c1 /\ c1 !! x = Some b /\
    CCS_CMPSET x b a c1 = Ok 1 c.
Proof.
  intros Hx Hv. exists (<[x := b]> c). split; [|split].
  - rewrite (cmpset_eval c x a b a Hx Hv).
    destruct (decide (a = a)); [reflexivity|contradiction].
  - apply lookup_insert_eq.
  - rewrite (cmpset_eval (<[x := b]> c) x b a b Hx (lookup_insert_eq _ _ _)).
    destruct (decide (b = b)); [|contradiction].
    rewrite insert_insert_eq. now rewrite (insert_id c x a Hv).
Qed.

(** X7. Whenever [CCS_CMPSET(x, y, z)] returns, its value is 0 or 1, every
    address other than [x] holds what it held, and the addresses that hold
    an object are the same as before. *)
Theorem cmpset_frame {V : Type} `{EqDecision V}
    (c c' : gmap Z V) (x r : Z) (y z : V) :
  CCS_CMPSET x y z c = Ok r c' ->
  (r = 0 \/ r = 1) /\
  (forall x', x' <> x -> c' !! x' = c !! x') /\
  (forall x', is_Some (c' !! x') <-> is_Some (c !! x')).
Proof.
  intros Hrun.
  destruct (decide (x = NULL)) as [->|Hx].
  { unfold CCS_CMPSET, bind in Hrun. rewrite deref_null in Hrun. discriminate. }
  destruct (c !! x) as [v|] eqn:Hv.
  - rewrite (cmpset_eval c x y z v Hx Hv) in Hrun.
    destruct (decide (v = y)); injection Hrun as <- <-.
    + split; [right; reflexivity|]. split.
      * intros x' Hne. now apply lookup_insert_ne.
      * intros x'. destruct (decide (x = x')) as [<-|Hne].
        -- rewrite lookup_insert_eq, Hv. split; eauto.
        -- now rewrite lookup_insert_ne.
    + split; [left; reflexivity|]. split; [reflexivity|reflexivity].
  - unfold CCS_CMPSET, bind, deref in Hrun.
    destruct (decide (x = NULL)); [contradiction|].
    unfold id in Hrun. rewrite Hv in Hrun. discriminate.
Qed.

(** The three compare-and-set macros off the atomic path, with the world
    they leave in closed form. *)
Lemma atomic_cmpset_fallback_closed
    (p32 p64 pword : Z -> Z -> Z -> M world Z)
    (b : build) (x y z v : Z) (w : world) :
  CCS_ENABLE_MULTI_THREADS b = false \/ ccs_uses_threads (thr w) = false ->
  x <> NULL -> cells w !! x = Some v ->
  let expected :=
    if decide (v = y) then Ok 1 (set_cells (<[x := z]> (cells w)) w) else Ok 0 w in
  CCS_ATOMIC_CMPSET_32 p32 b x y z w = expected /\
  CCS_ATOMIC_CMPSET_64 p64 b x y z w = expected /\
  CCS_ATOMIC_CMPSET pword b x y z w = expected.
Proof.
  intros Hoff Hx Hv expected.
  assert (Hcells : cmpset_cells x y z w = expected).
  { unfold cmpset_cells, expected. rewrite (cmpset_eval (cells w) x y z v Hx Hv).
    destruct (decide (v = y)); [reflexivity|]. destruct w; reflexivity. }
  unfold CCS_ATOMIC_CMPSET_32, CCS_ATOMIC_CMPSET_64, CCS_ATOMIC_CMPSET.
  destruct (CCS_ENABLE_MULTI_THREADS b).
  - destruct Hoff as [Hoff|Hoff]; [discriminate|].
    rewrite !(bind_ok _ _ _ _ _ (using_threads_ok w)), Hoff. auto.
  - auto.
Qed.

(** X8. In a build without thread support, and in any build while the hint
    is false, [CCS_ATOMIC_CMPSET_32], [CCS_ATOMIC_CMPSET_64] and
    [CCS_ATOMIC_CMPSET] are the plain compare-and-assign, whatever the
    atomic primitives are: at a valid pointer all three evaluate to 1 when
    the object holds [y], and the object then holds [z], and to 0 when it
    does not, and the object then holds what it held; the other objects and
    the hint are untouched. *)
Theorem atomic_cmpset_fallback
    (p32 p64 pword : Z -> Z -> Z -> M world Z)
    (b : build) (x y z v : Z) (w : world) :
  CCS_ENABLE_MULTI_THREADS b = false \/ ccs_uses_threads (thr w) = false ->
  x <> NULL -> cells w !! x = Some v ->
  exists r w',
    CCS_ATOMIC_CMPSET_32 p32 b x y z w = Ok r w' /\
    CCS_ATOMIC_CMPSET_64 p64 b x y z w = Ok r w' /\
    CCS_ATOMIC_CMPSET pword b x y z w = Ok r w' /\
    (r = 1 <-> v = y) /\ (r = 0 <-> v <> y) /\
    (v = y -> cells w' !! x = Some z) /\
    (v <> y -> cells w' !! x = Some v) /\
    (forall x', x' <> x -> cells w' !! x' = cells w !! x') /\
    thr w' = thr w.
Proof.
  intros Hoff Hx Hv.
  destruct (atomic_cmpset_fallback_closed p32 p64 pword b x y z v w Hoff Hx Hv)
    as (H32 & H64 & Hword).
  destruct (decide (v = y)) as [E|N].
  - exists 1, (set_cells (<[x := z]> (cells w)) w).
    split; [exact H32|]. split; [exact H64|]. split; [exact Hword|].
    cbn [cells thr set_cells].
    split; [tauto|]. split; [split; [discriminate | contradiction]|].
    split; [intros _; apply lookup_insert_eq|]. split; [contradiction|].
    split; [|reflexivity]. intros x' Hne. apply lookup_insert_ne. congruence.
  - exists 0, w.
    split; [exact H32|]. split; [exact H64|]. split; [exact Hword|].
    split; [split; [discriminate | contradiction]|]. split; [tauto|].
    split; [contradiction|]. split; [intros _; exact Hv|].
    split; [reflexivity | reflexivity].
Qed.

End AtomicSequences.

(** ** Debug lock tracker *)

Section MutexSequences.
Import CInt ThreadMode Mutex.
Context {P : Platform}.

Lemma update_lookup mutex m out (w : world P) :
  mutexes (update mutex m out w) !! mutex = Some m.
Proof. simpl. apply lookup_insert_eq. Qed.

Lemma update_lookup_ne mutex mutex' m out (w : world P) :
  mutex' <> mutex -> mutexes (update mutex m out w) !! mutex' = mutexes w !! mutex'.
Proof. intros Hne. simpl. apply lookup_insert_ne. congruence. Qed.

Lemma update_update mutex m1 o1 m2 o2 (w : world P) :
  update mutex m2 o2 (update mutex m1 o1 w) = update mutex m2 o2 w.
Proof. unfold update, set_output, set_mutexes. simpl. now rewrite insert_insert_eq. Qed.

Lemma update_id mutex m (w : world P) :
  mutexes w !! mutex = Some m -> update mutex m (output w) w = w.
Proof.
  intros Hm. unfold update, set_output, set_mutexes. simpl.
  rewrite (insert_id _ _ _ Hm). destruct w; reflexivity.
Qed.

(** The step tactic of the debug macros: the next operation reads or
    writes the mutex, whose record in the current world is known. *)
Ltac mx_step Hx :=
  rewrite ?bind_bind;
  match goal with
  | |- bind (rd ?f ?mutex) _ ?w1 = _ =>
      let H := fresh in
      eassert (H : mutexes w1 !! mutex = Some _)
        by (first [eassumption | simpl; apply lookup_insert_eq]);
      rewrite (bind_ok _ _ _ _ _ (rd_ok f mutex _ w1 Hx H)); clear H; cbv beta
  | |- bind (wr ?u ?mutex) _ ?w1 = _ =>
      let H := fresh in
      eassert (H : mutexes w1 !! mutex = Some _)
        by (first [eassumption | simpl; apply lookup_insert_eq]);
      rewrite (bind_ok _ _ _ _ _ (wr_ok u mutex _ w1 Hx H)); clear H; cbv beta
  | |- bind (incr_debug ?mutex) _ ?w1 = _ =>
      let H := fresh in
      eassert (H : mutexes w1 !! mutex = Some _)
        by (first [eassumption | simpl; apply lookup_insert_eq]);
      rewrite (bind_ok _ _ _ _ _ (incr_debug_ok mutex _ w1 Hx H)); clear H; cbv beta
  | |- bind (decr_debug ?mutex) _ ?w1 = _ =>
      let H := fresh in
      eassert (H : mutexes w1 !! mutex = Some _)
        by (first [eassumption | simpl; apply lookup_insert_eq]);
      rewrite (bind_ok _ _ _ _ _ (decr_debug_ok mutex _ w1 Hx H)); clear H; cbv beta
  | |- bind check_locks _ ?w1 = _ =>
      rewrite (bind_ok _ _ _ _ _ (check_locks_ok w1)); cbv beta
  | |- bind (service_output ?i ?f ?a) _ ?w1 = _ =>
      rewrite (bind_ok _ _ _ _ _ (service_output_ok i f a w1)); cbv beta
  | |- bind (ret ?a) _ ?w1 = _ =>
      rewrite (bind_ok _ _ _ _ _ (eq_refl : ret a w1 = Ok a w1)); cbv beta
  end.

Ltac mx_last Hx :=
  match goal with
  | |- wr ?u ?mutex ?w1 = _ =>
      let H := fresh in
      eassert (H : mutexes w1 !! mutex = Some _)
        by (first [eassumption | simpl; apply lookup_insert_eq]);
      rewrite (wr_ok u mutex _ w1 Hx H); clear H
  end.

Ltac same_world w :=
  destruct w; unfold update, set_output, set_mutexes; simpl;
  rewrite ?insert_insert_eq; reflexivity.

(** The debug [CCS_THREAD_LOCK] on a valid mutex, in closed form. *)
Lemma debug_lock_eval (w : world P) mutex m file line :
  mutex <> NULL -> mutexes w !! mutex = Some m ->
  CCS_THREAD_LOCK debug_build mutex file line w =
    Ok tt (update mutex (Mtx (int (m_lock_debug m + 1)) (Some file) line)
             (if service_mutex_check_locks w && negb (1 =? int (m_lock_debug m + 1))
              then output w ++
                   [Msg "Warning -- mutex already locked at %s:%d, now at %s:%d"
                        [AStr (m_lock_file m); AInt (m_lock_line m);
                         AStr (Some file); AInt line]]
              else output w)
             w).
Proof.
  intros Hx Hm. unfold CCS_THREAD_LOCK, debug_build, and_then.
  cbn [CCS_ENABLE_MULTI_THREADS CCS_ENABLE_DEBUG].
  mx_step Hx. mx_step Hx.
  change (service_mutex_check_locks (set_mutexes _ w)) with (service_mutex_check_locks w).
  destruct (service_mutex_check_locks w); cbn [andb].
  - mx_step Hx. mx_step Hx. cbn [m_lock_debug with_debug].
    destruct (negb (1 =? int (m_lock_debug m + 1))).
    + mx_step Hx. mx_step Hx. mx_step Hx. mx_step Hx. mx_last Hx.
      first [reflexivity | f_equal; same_world w].
    + mx_step Hx. mx_step Hx. mx_last Hx. first [reflexivity | f_equal; same_world w].
  - mx_step Hx. mx_step Hx. mx_step Hx. mx_last Hx. first [reflexivity | f_equal; same_world w].
Qed.

Lemma update_same mutex m out (w : world P) :
  mutexes w !! mutex = Some m -> update mutex m out w = set_output out w.
Proof.
  intros Hm. unfold update, set_output, set_mutexes. simpl.
  now rewrite (insert_id _ _ _ Hm).
Qed.

(** The debug [CCS_THREAD_UNLOCK] on a valid mutex, in closed form. *)
Lemma debug_unlock_eval (w : world P) mutex m file line :
  mutex <> NULL -> mutexes w !! mutex = Some m ->
  CCS_THREAD_UNLOCK debug_build mutex file line w =
    Ok tt (if service_mutex_check_locks w && (int (m_lock_debug m - 1) <? 0)
           then update mutex (with_debug (int (m_lock_debug m - 1)) m)
                  (output w ++
                   [Msg "Warning -- mutex was double locked from %s:%d"
                        [AStr (Some file); AInt line]]) w
           else update mutex (Mtx (int (m_lock_debug m - 1)) None 0) (output w) w).
Proof.
  intros Hx Hm. unfold CCS_THREAD_UNLOCK, debug_build, and_then.
  cbn [CCS_ENABLE_MULTI_THREADS CCS_ENABLE_DEBUG].
  mx_step Hx. mx_step Hx.
  change (service_mutex_check_locks (set_mutexes _ w)) with (service_mutex_check_locks w).
  destruct (service_mutex_check_locks w) eqn:Hc; cbn [andb].
  - mx_step Hx. mx_step Hx. cbn [m_lock_debug with_debug]. rewrite Z.gtb_ltb.
    destruct (int (m_lock_debug m - 1) <? 0) eqn:Hneg.
    + rewrite service_output_ok. first [reflexivity | f_equal; same_world w].
    + mx_step Hx.
      change (service_mutex_check_locks (set_mutexes _ w)) with (service_mutex_check_locks w).
      rewrite Hc. mx_step Hx. mx_step Hx. cbn [m_lock_debug with_debug].
      rewrite Z.gtb_ltb, Hneg. mx_step Hx. mx_last Hx. first [reflexivity | f_equal; same_world w].
  - mx_step Hx. mx_step Hx.
    change (service_mutex_check_locks (set_mutexes _ w)) with (service_mutex_check_locks w).
    rewrite Hc. mx_step Hx. mx_step Hx. mx_last Hx. first [reflexivity | f_equal; same_world w].
Qed.

(** The debug trylock on a valid mutex, in closed form. *)
Lemma debug_trylock_eval (w : world P) mutex m file line :
  mutex <> NULL -> mutexes w !! mutex = Some m ->
  service_thread_debug_trylock mutex file line w =
    if 0 =? m_lock_debug m
    then Ok 0 (update mutex (Mtx 1 file line) (output w) w)
    else Ok (-1)
           (update mutex m
              (if service_mutex_check_locks w
               then output w ++
                    [Msg "Warning -- during trylock, mutex already locked at %s:%d now at %s:%d"
                         [AStr file; AInt line; AStr (m_lock_file m); AInt (m_lock_line m)]]
               else output w) w).
Proof.
  intros Hx Hm. unfold service_thread_debug_trylock.
  mx_step Hx.
  destruct (0 =? m_lock_debug m) eqn:Hd.
  - apply Z.eqb_eq in Hd.
    mx_step Hx. mx_step Hx. mx_step Hx. unfold ret. f_equal.
    rewrite <- Hd. same_world w.
  - mx_step Hx. rewrite (update_same mutex m _ w Hm).
    destruct (service_mutex_check_locks w).
    + mx_step Hx. mx_step Hx. mx_step Hx. reflexivity.
    + mx_step Hx. unfold ret. f_equal. destruct w; reflexivity.
Qed.

(** The debug lock on a valid mutex, with the conditions on its log. *)
Lemma debug_lock_spec_closed (w : world P) (mutex : Z) (m : service_mutex_t)
    (file : string) (line : Z) :
  mutex <> NULL -> mutexes w !! mutex = Some m ->
  exists d' out',
    CCS_THREAD_LOCK debug_build mutex file line w =
      Ok tt (update mutex (Mtx d' (Some file) line) out' w) /\
    d' = int (m_lock_debug m + 1) /\
    (- 2 ^ 31 <= m_lock_debug m < 2 ^ 31 - 1 -> d' = m_lock_debug m + 1) /\
    (service_mutex_check_locks w = true -> d' <> 1 ->
       out' = output w ++
              [Msg "Warning -- mutex already locked at %s:%d, now at %s:%d"
                   [AStr (m_lock_file m); AInt (m_lock_line m);
                    AStr (Some file); AInt line]]) /\
    (service_mutex_check_locks w = false \/ d' = 1 -> out' = output w).
Proof.
  intros Hx Hm. rewrite (debug_lock_eval w mutex m file line Hx Hm).
  eexists _, _. split; [reflexivity|]. split; [reflexivity|]. split.
  { intros Hr. apply int_small. lia. }
  split.
  - intros Hc Hd. rewrite Hc. cbn [andb].
    destruct (1 =? int (m_lock_debug m + 1)) eqn:E; [|reflexivity].
    apply Z.eqb_eq in E. congruence.
  - intros [Hc|Hd].
    + now rewrite Hc.
    + rewrite Hd. cbn. now rewrite andb_false_r.
Qed.

(** X9. On a valid mutex the debug [CCS_THREAD_LOCK] always returns; the
    mutex then holds the lock depth raised by one (as an [int]) and the
    file and line of the caller as the acquisition site.  When
    [service_mutex_check_locks] is set and the new depth is not 1, the log
    has gained one warning that names the site recorded before and the
    site of the caller; in every other case the log is as it was.  The
    other mutexes, the hint, the platform and the check flag are
    untouched. *)
Theorem debug_lock_spec (w : world P) (mutex : Z) (m : service_mutex_t)
    (file : string) (line : Z) :
  mutex <> NULL -> mutexes w !! mutex = Some m ->
  exists w' d',
    CCS_THREAD_LOCK debug_build mutex file line w = Ok tt w' /\
    mutexes w' !! mutex = Some (Mtx d' (Some file) line) /\
    (forall k, k <> mutex -> mutexes w' !! k = mutexes w !! k) /\
    thr w' = thr w /\ plat w' = plat w /\
    service_mutex_check_locks w' = service_mutex_check_locks w /\
    d' = int (m_lock_debug m + 1) /\
    (- 2 ^ 31 <= m_lock_debug m < 2 ^ 31 - 1 -> d' = m_lock_debug m + 1) /\
    (service_mutex_check_locks w = true -> d' <> 1 ->
       output w' = output w ++
                   [Msg "Warning -- mutex already locked at %s:%d, now at %s:%d"
                        [AStr (m_lock_file m); AInt (m_lock_line m);
                         AStr (Some file); AInt line]]) /\
    (service_mutex_check_locks w = false \/ d' = 1 -> output w' = output w).
Proof.
  intros Hx Hm.
  destruct (debug_lock_spec_closed w mutex m file line Hx Hm)
    as (d' & out' & Hrun & Hd & Hexact & Hwarn & Hquiet).
  eexists _, d'. split; [exact Hrun|].
  split; [apply update_lookup|].
  split. { intros k Hk. now apply update_lookup_ne. }
  split; [reflexivity|]. split; [reflexivity|]. split; [reflexivity|].
  split; [exact Hd|]. split; [exact Hexact|]. split; [exact Hwarn | exact Hquiet].
Qed.

(** A lock and the unlock that follows it, on a mutex of depth 0, in front
    of the rest [k] of a computation. *)
Lemma debug_lock_unlock_pair {A} (k : unit -> M (world P) A)
    (w : world P) mutex m f1 l1 f2 l2 :
  mutex <> NULL -> mutexes w !! mutex = Some m -> m_lock_debug m = 0 ->
  bind (CCS_THREAD_LOCK debug_build mutex f1 l1)
       (fun _ => bind (CCS_THREAD_UNLOCK debug_build mutex f2 l2) k) w =
    k tt (update mutex (Mtx 0 None 0) (output w) w).
Proof.
  intros Hx Hm Hd.
  rewrite (bind_ok _ _ _ _ _ (debug_lock_eval w mutex m f1 l1 Hx Hm)).
  rewrite Hd. change (int (0 + 1)) with 1. cbn [Z.eqb Pos.eqb negb].
  rewrite andb_false_r.
  rewrite (bind_ok _ _ _ _ _
             (debug_unlock_eval _ mutex _ f2 l2 Hx (update_lookup mutex _ _ w))).
  cbn [m_lock_debug]. change (int (1 - 1)) with 0. cbn [Z.ltb Z.compare].
  rewrite andb_false_r. now rewrite update_update.
Qed.

(** X10. In the debug build, any number of lock and unlock pairs, one pair
    at least, on a valid mutex of depth 0 returns with the mutex at depth 0
    and with no recorded site, and writes nothing to the log, whether
    [service_mutex_check_locks] is set or not. *)
Theorem debug_lock_unlock_balanced (w : world P) (mutex : Z) (m : service_mutex_t)
    (f1 f2 : string) (l1 l2 : Z) (n : nat) :
  mutex <> NULL -> mutexes w !! mutex = Some m -> m_lock_debug m = 0 ->
  run debug_build
      (concat (repeat [Lock mutex f1 l1; Unlock mutex f2 l2] (Datatypes.S n))) w =
    Ok tt (update mutex (Mtx 0 None 0) (output w) w).
Proof.
  revert w m. induction n as [|n IH]; intros w m Hx Hm Hd.
  - cbn [repeat concat app run perform].
    apply (debug_lock_unlock_pair (fun _ => ret tt) w mutex m f1 l1 f2 l2 Hx Hm Hd).
  - change (concat (repeat [Lock mutex f1 l1; Unlock mutex f2 l2] (Datatypes.S (Datatypes.S n))))
      with (Lock mutex f1 l1 :: Unlock mutex f2 l2 ::
            concat (repeat [Lock mutex f1 l1; Unlock mutex f2 l2] (Datatypes.S n))).
    cbn [run perform].
    rewrite (debug_lock_unlock_pair
               (fun _ => run debug_build
                           (concat (repeat [Lock mutex f1 l1; Unlock mutex f2 l2]
                                      (Datatypes.S n))))
               w mutex m f1 l1 f2 l2 Hx Hm Hd).
    rewrite (IH _ (Mtx 0 None 0) Hx (update_lookup mutex _ _ w) eq_refl).
    now rewrite update_update.
Qed.

(** A trylock on a mutex that was just taken, with the world it leaves in
    closed form. *)
Lemma debug_trylock_held_closed (w : world P) (mutex : Z) (m : service_mutex_t)
    (f1 f2 : string) (l1 l2 : Z) :
  mutex <> NULL -> mutexes w !! mutex = Some m -> m_lock_debug m = 0 ->
  let held :=
    update mutex (Mtx 1 (Some f1) l1)
      (if service_mutex_check_locks w
       then output w ++
            [Msg "Warning -- during trylock, mutex already locked at %s:%d now at %s:%d"
                 [AStr (Some f2); AInt l2; AStr (Some f1); AInt l1]]
       else output w) w in
  bind (CCS_THREAD_LOCK debug_build mutex f1 l1)
       (fun _ => CCS_THREAD_TRYLOCK debug_build mutex f2 l2) w = Ok (-1) held /\
  bind (CCS_THREAD_TRYLOCK debug_build mutex f1 l1)
       (fun r1 => bind (CCS_THREAD_TRYLOCK debug_build mutex f2 l2)
                       (fun r2 => ret (r1, r2))) w = Ok (0, -1) held.
Proof.
  intros Hx Hm Hd held. subst held. split.
  - rewrite (bind_ok _ _ _ _ _ (debug_lock_eval w mutex m f1 l1 Hx Hm)).
    rewrite Hd. change (int (0 + 1)) with 1. cbn [Z.eqb Pos.eqb negb].
    rewrite andb_false_r.
    change (CCS_THREAD_TRYLOCK debug_build mutex f2 l2)
      with (service_thread_debug_trylock mutex (Some f2) l2).
    rewrite (debug_trylock_eval _ mutex _ (Some f2) l2 Hx (update_lookup mutex _ _ w)).
    cbn [m_lock_debug m_lock_file m_lock_line Z.eqb].
    now rewrite update_update.
  - change (CCS_THREAD_TRYLOCK debug_build mutex f1 l1)
      with (service_thread_debug_trylock mutex (Some f1) l1).
    change (CCS_THREAD_TRYLOCK debug_build mutex f2 l2)
      with (service_thread_debug_trylock mutex (Some f2) l2).
    pose proof (debug_trylock_eval w mutex m (Some f1) l1 Hx Hm) as E1.
    rewrite Hd in E1. cbn [Z.eqb] in E1.
    rewrite (bind_ok _ _ _ _ _ E1).
    pose proof (debug_trylock_eval _ mutex _ (Some f2) l2 Hx
                  (update_lookup mutex (Mtx 1 (Some f1) l1) (output w) w)) as E2.
    cbn [m_lock_debug Z.eqb] in E2.
    rewrite (bind_ok _ _ _ _ _ E2). unfold ret.
    cbn [m_lock_file m_lock_line]. now rewrite update_update.
Qed.

(** X11. In the debug build a trylock on a mutex that is held fails and
    leaves the holder in place: after [CCS_THREAD_LOCK] on a valid mutex of
    depth 0, [CCS_THREAD_TRYLOCK] returns -1 and the mutex still holds
    depth 1 and the site of the lock; the log has gained one warning when
    [service_mutex_check_locks] is set and nothing when it is not.  The
    same holds when the mutex was taken by a first trylock, which returns
    0. *)
Theorem debug_trylock_held (w : world P) (mutex : Z) (m : service_mutex_t)
    (f1 f2 : string) (l1 l2 : Z) :
  mutex <> NULL -> mutexes w !! mutex = Some m -> m_lock_debug m = 0 ->
  exists w',
    bind (CCS_THREAD_LOCK debug_build mutex f1 l1)
         (fun _ => CCS_THREAD_TRYLOCK debug_build mutex f2 l2) w = Ok (-1) w' /\
    bind (CCS_THREAD_TRYLOCK debug_build mutex f1 l1)
         (fun r1 => bind (CCS_THREAD_TRYLOCK debug_build mutex f2 l2)
                         (fun r2 => ret (r1, r2))) w = Ok (0, -1) w' /\
    mutexes w' !! mutex = Some (Mtx 1 (Some f1) l1) /\
    (forall k, k <> mutex -> mutexes w' !! k = mutexes w !! k) /\
    (service_mutex_check_locks w = true ->
       output w' = output w ++
         [Msg "Warning -- during trylock, mutex already locked at %s:%d now at %s:%d"
              [AStr (Some f2); AInt l2; AStr (Some f1); AInt l1]]) /\
    (service_mutex_check_locks w = false -> output w' = output w).
Proof.
  intros Hx Hm Hd.
  destruct (debug_trylock_held_closed w mutex m f1 f2 l1 l2 Hx Hm Hd) as [Hlock Htry].
  eexists. split; [exact Hlock|]. split; [exact Htry|].
  split; [apply update_lookup|].
  split. { intros k Hk. now apply update_lookup_ne. }
  split.
  - intros Hc. cbn [output update set_output]. now rewrite Hc.
  - intros Hc. cbn [output update set_output]. now rewrite Hc.
Qed.

(** Two locks in a row on a mutex of depth 0, with the world they leave in
    closed form. *)
Lemma debug_double_lock_reported_closed (w : world P) (mutex : Z) (m : service_mutex_t)
    (f1 f2 : string) (l1 l2 : Z) :
  mutex <> NULL -> mutexes w !! mutex = Some m -> m_lock_debug m = 0 ->
  service_mutex_check_locks w = true ->
  bind (CCS_THREAD_LOCK debug_build mutex f1 l1)
       (fun _ => CCS_THREAD_LOCK debug_build mutex f2 l2) w =
    Ok tt (update mutex (Mtx 2 (Some f2) l2)
             (output w ++
              [Msg "Warning -- mutex already locked at %s:%d, now at %s:%d"
                   [AStr (Some f1); AInt l1; AStr (Some f2); AInt l2]]) w).
Proof.
  intros Hx Hm Hd Hc.
  rewrite (bind_ok _ _ _ _ _ (debug_lock_eval w mutex m f1 l1 Hx Hm)).
  rewrite Hd, Hc. change (int (0 + 1)) with 1. cbn [Z.eqb Pos.eqb negb andb].
  rewrite (debug_lock_eval _ mutex _ f2 l2 Hx (update_lookup mutex _ _ w)).
  cbn [m_lock_debug m_lock_file m_lock_line]. change (int (1 + 1)) with 2.
  change (service_mutex_check_locks (update _ _ _ w)) with (service_mutex_check_locks w).
  rewrite Hc. cbn [Z.eqb Pos.eqb negb andb]. now rewrite update_update.
Qed.

(** X12. In the debug build a second [CCS_THREAD_LOCK] on a mutex that the
    first one took at depth 0 is reported when [service_mutex_check_locks]
    is set: the mutex then holds depth 2 and the site of the second lock,
    and the log has gained exactly one warning, which names the site of the
    first lock and the site of the second. *)
Theorem debug_double_lock_reported (w : world P) (mutex : Z) (m : service_mutex_t)
    (f1 f2 : string) (l1 l2 : Z) :
  mutex <> NULL -> mutexes w !! mutex = Some m -> m_lock_debug m = 0 ->
  service_mutex_check_locks w = true ->
  exists w',
    bind (CCS_THREAD_LOCK debug_build mutex f1 l1)
         (fun _ => CCS_THREAD_LOCK debug_build mutex f2 l2) w = Ok tt w' /\
    mutexes w' !! mutex = Some (Mtx 2 (Some f2) l2) /\
    (forall k, k <> mutex -> mutexes w' !! k = mutexes w !! k) /\
    output w' = output w ++
      [Msg "Warning -- mutex already locked at %s:%d, now at %s:%d"
           [AStr (Some f1); AInt l1; AStr (Some f2); AInt l2]].
Proof.
  intros Hx Hm Hd Hc.
  eexists. split; [exact (debug_double_lock_reported_closed w mutex m f1 f2 l1 l2 Hx Hm Hd Hc)|].
  split; [apply update_lookup|].
  split; [|reflexivity]. intros k Hk. now apply update_lookup_ne.
Qed.

(** One call of the debug build on a valid mutex. *)
Lemma perform_debug_step (w : world P) (c : call) (m : service_mutex_t) :
  call_mutex c <> NULL -> mutexes w !! call_mutex c = Some m ->
  exists m' extra,
    perform debug_build c w =
      Ok tt (update (call_mutex c) m' (output w ++ extra) w) /\
    (length extra <= 1)%nat /\
    (service_mutex_check_locks w = false -> extra = []).
Proof.
  intros Hx Hm. destruct c as [mutex file line|mutex file line]; cbn [call_mutex] in *;
    cbn [perform].
  - rewrite (debug_lock_eval w mutex m file line Hx Hm).
    destruct (service_mutex_check_locks w && negb (1 =? int (m_lock_debug m + 1))) eqn:E.
    + eexists _, [_]. split; [reflexivity|]. split; [simpl; lia|].
      intros Hc. rewrite Hc in E. discriminate.
    + eexists _, []. rewrite app_nil_r. split; [reflexivity|]. split; [simpl; lia|easy].
  - rewrite (debug_unlock_eval w mutex m file line Hx Hm).
    destruct (service_mutex_check_locks w && (int (m_lock_debug m - 1) <? 0)) eqn:E.
    + eexists _, [_]. split; [reflexivity|]. split; [simpl; lia|].
      intros Hc. rewrite Hc in E. discriminate.
    + eexists _, []. rewrite app_nil_r. split; [reflexivity|]. split; [simpl; lia|easy].
Qed.

Lemma update_is_Some mutex m out (w : world P) k :
  is_Some (mutexes w !! mutex) ->
  is_Some (mutexes (update mutex m out w) !! k) <-> is_Some (mutexes w !! k).
Proof.
  intros Hm. destruct (decide (k = mutex)) as [->|Hne].
  - rewrite update_lookup. split; eauto.
  - now rewrite update_lookup_ne.
Qed.

(** X13. In the debug build no sequence of [CCS_THREAD_LOCK] and
    [CCS_THREAD_UNLOCK] calls on valid mutexes fails, however badly the
    calls are paired: the sequence returns, the platform mutex, the hint
    and [service_mutex_check_locks] are untouched, the same mutexes exist
    afterwards, and the log only grows, by at most one message per call
    and by none at all when [service_mutex_check_locks] is off. *)
Theorem debug_run_advisory (cs : list call) (w : world P) :
  Forall (fun c => call_mutex c <> NULL /\ is_Some (mutexes w !! call_mutex c)) cs ->
  exists w' extra,
    run debug_build cs w = Ok tt w' /\
    thr w' = thr w /\ plat w' = plat w /\
    service_mutex_check_locks w' = service_mutex_check_locks w /\
    (forall k, is_Some (mutexes w' !! k) <-> is_Some (mutexes w !! k)) /\
    output w' = output w ++ extra /\
    (length extra <= length cs)%nat /\
    (service_mutex_check_locks w = false -> extra = []).
Proof.
  revert w. induction cs as [|c cs IH]; intros w Hall.
  - exists w, []. rewrite app_nil_r. repeat split; auto.
  - inversion Hall as [|c' cs' [Hx [m Hm]] Hrest]; subst.
    destruct (perform_debug_step w c m Hx Hm) as (m' & e1 & Hstep & Hlen & Hoff).
    cbn [run]. rewrite (bind_ok _ _ _ _ _ Hstep).
    set (w1 := update (call_mutex c) m' (output w ++ e1) w) in *.
    assert (Hsome : forall k, is_Some (mutexes w1 !! k) <-> is_Some (mutexes w !! k)).
    { intros k. apply update_is_Some. eauto. }
    destruct (IH w1) as (w' & e2 & Hrun & Hthr & Hplat & Hchk & Hdom & Hout & Hlen2 & Hoff2).
    { eapply Forall_impl; [exact Hrest|]. intros c0 [Hn Hs]. split; [exact Hn|].
      now apply Hsome. }
    exists w', (e1 ++ e2). split; [exact Hrun|].
    split; [exact Hthr|]. split; [exact Hplat|]. split; [exact Hchk|]. split.
    { intros k. rewrite Hdom. apply Hsome. }
    split.
    { rewrite Hout. subst w1. simpl. now rewrite app_assoc. }
    split.
    { rewrite length_app. simpl. lia. }
    intros Hc. rewrite (Hoff Hc). simpl. apply Hoff2. exact Hc.
Qed.

(** X14. The warning of the debug [CCS_THREAD_SCOPED_LOCK] is not gated by
    [service_mutex_check_locks]: on a valid mutex whose depth is not 0 the
    macro writes its warning before the action starts, whatever the flag
    is, and on a mutex of depth 0 it writes nothing before the action. *)
Theorem debug_scoped_lock_warning (w : world P) (mutex : Z) (m : service_mutex_t)
    (action : M (world P) unit) (file : string) (line : Z) :
  mutex <> NULL -> mutexes w !! mutex = Some m ->
  exists w1,
    CCS_THREAD_SCOPED_LOCK debug_build mutex action file line w =
      bind action (fun _ => incr_debug mutex) w1 /\
    service_mutex_check_locks w1 = service_mutex_check_locks w /\
    (m_lock_debug m <> 0 ->
       output w1 = output w ++
         [Msg "scoped_lock: Warning -- mutex already locked at %s:%d, now at %s:%d"
              [AStr (Some file); AInt line;
               AStr (m_lock_file m); AInt (m_lock_line m)]]) /\
    (m_lock_debug m = 0 -> output w1 = output w).
Proof.
  intros Hx Hm.
  rewrite (scoped_lock_debug_prefix w mutex m action file line Hx Hm).
  eexists. split; [reflexivity|]. split; [reflexivity|]. split.
  - intros Hd. cbn [output set_output].
    destruct (0 =? m_lock_debug m) eqn:E; [|reflexivity].
    apply Z.eqb_eq in E. congruence.
  - intros Hd. cbn [output set_output]. now rewrite Hd.
Qed.

(** One call of the threaded build with the hint on. *)
Lemma perform_delegated (b : build) (c : call) (w : world P) :
  CCS_ENABLE_MULTI_THREADS b = true -> ccs_uses_threads (thr w) = true ->
  perform b c w = Ok tt (set_plat (delegate c (plat w)) w).
Proof.
  intros Hb Ht.
  destruct c; cbn [perform delegate]; unfold CCS_THREAD_LOCK, CCS_THREAD_UNLOCK;
    rewrite Hb; rewrite (bind_ok _ _ _ _ _ (mutex_using_threads_ok w)), Ht; reflexivity.
Qed.

(** A sequence of calls of the threaded build with the hint on, with the
    world it leaves in closed form. *)
Lemma threaded_run_delegates_closed (b : build) (cs : list call) (w : world P) :
  CCS_ENABLE_MULTI_THREADS b = true -> ccs_uses_threads (thr w) = true ->
  run b cs w = Ok tt (set_plat (fold_left (fun p c => delegate c p) cs (plat w)) w).
Proof.
  intros Hb. revert w. induction cs as [|c cs IH]; intros w Ht.
  - destruct w; reflexivity.
  - cbn [run fold_left]. rewrite (bind_ok _ _ _ _ _ (perform_delegated b c w Hb Ht)).
    rewrite (IH (set_plat (delegate c (plat w)) w) Ht). destruct w; reflexivity.
Qed.

(** X15. In a build with thread support, while the hint is true, a
    sequence of [CCS_THREAD_LOCK] and [CCS_THREAD_UNLOCK] calls returns
    with the platform in the state that the platform primitives of the
    same kind reach when called once per call, in the order of the calls,
    and with everything else as it was: the debug records of the mutexes,
    the log, the hint and the check flag. *)
Theorem threaded_run_delegates (b : build) (cs : list call) (w : world P) :
  CCS_ENABLE_MULTI_THREADS b = true -> ccs_uses_threads (thr w) = true ->
  exists w',
    run b cs w = Ok tt w' /\
    plat w' = fold_left (fun p c => delegate c p) cs (plat w) /\
    mutexes w' = mutexes w /\ output w' = output w /\
    thr w' = thr w /\
    service_mutex_check_locks w' = service_mutex_check_locks w.
Proof.
  intros Hb Ht. eexists.
  split; [exact (threaded_run_delegates_closed b cs w Hb Ht)|].
  repeat split.
Qed.

(** X16. In every build that does not select the debug variant of the
    macros, [CCS_THREAD_SCOPED_LOCK(mutex, action)] does what [CCS_THREAD_LOCK(mutex)], the action and
    [CCS_THREAD_UNLOCK(mutex)] do one after the other, for every action
    that leaves the hint as it found it: the lock taken before the action
    is released after it, and with the hint false, or without thread
    support, only the action runs. *)
Theorem scoped_lock_is_lock_action_unlock (b : build) (mutex : Z)
    (action : M (world P) unit) (file : string) (line : Z) (w : world P) :
  CCS_ENABLE_MULTI_THREADS b = true \/ CCS_ENABLE_DEBUG b = false ->
  (forall w1 w2, action w1 = Ok tt w2 -> thr w2 = thr w1) ->
  CCS_THREAD_SCOPED_LOCK b mutex action file line w =
    bind (CCS_THREAD_LOCK b mutex file line)
         (fun _ => bind action (fun _ => CCS_THREAD_UNLOCK b mutex file line)) w.
Proof.
  intros Hb Hkeep.
  assert (Hfault : forall (k : unit -> M (world P) unit) s f,
             action s = Fault f -> bind action k s = Fault f).
  { intros k s f H. unfold bind. now rewrite H. }
  unfold CCS_THREAD_SCOPED_LOCK, CCS_THREAD_LOCK, CCS_THREAD_UNLOCK.
  destruct (CCS_ENABLE_MULTI_THREADS b).
  - rewrite bind_bind.
    rewrite !(bind_ok _ _ _ _ _ (mutex_using_threads_ok w)).
    destruct (ccs_uses_threads (thr w)) eqn:Ht.
    + rewrite !(bind_ok _ _ _ _ _
                  (eq_refl : platform_lock mutex w =
                             Ok tt (set_plat (service_mutex_lock mutex (plat w)) w))).
      destruct (action (set_plat (service_mutex_lock mutex (plat w)) w))
        as [[] w2|f] eqn:Ha.
      * rewrite !(bind_ok _ _ _ _ _ Ha).
        pose proof (Hkeep _ _ Ha) as Hthr. simpl in Hthr.
        rewrite (bind_ok _ _ _ _ _ (mutex_using_threads_ok w2)), Hthr, Ht. reflexivity.
      * now rewrite !(Hfault _ _ _ Ha).
    + rewrite (bind_ok _ _ _ _ _ (eq_refl : ret tt w = Ok tt w)).
      destruct (action w) as [[] w2|f] eqn:Ha.
      * rewrite (bind_ok _ _ _ _ _ Ha).
        pose proof (Hkeep _ _ Ha) as Hthr.
        rewrite (bind_ok _ _ _ _ _ (mutex_using_threads_ok w2)), Hthr, Ht. reflexivity.
      * now rewrite (Hfault _ _ _ Ha).
  - destruct Hb as [Hb|Hb]; [discriminate|]. rewrite Hb.
    rewrite (bind_ok _ _ _ _ _ (eq_refl : ret tt w = Ok tt w)).
    unfold bind. destruct (action w) as [[] w2|f]; reflexivity.
Qed.

(** X17. In every build that does not select the debug variant of the
    macros, [CCS_THREAD_TRYLOCK] never looks at the mutex.  Without thread support, and with thread support while the hint
    is false, it evaluates to 0 and leaves the world as it was, for every
    pointer, the null pointer included; with thread support and the hint
    true it evaluates to what the platform trylock answers and changes the
    state of the platform only. *)
Theorem trylock_outside_debug (b : build) (mutex : Z) (file : string) (line : Z)
    (w : world P) :
  CCS_ENABLE_MULTI_THREADS b = true \/ CCS_ENABLE_DEBUG b = false ->
  CCS_THREAD_TRYLOCK b mutex file line w =
    if CCS_ENABLE_MULTI_THREADS b && ccs_uses_threads (thr w)
    then Ok (fst (service_mutex_trylock mutex (plat w)))
            (set_plat (snd (service_mutex_trylock mutex (plat w))) w)
    else Ok 0 w.
Proof.
  intros Hb. unfold CCS_THREAD_TRYLOCK.
  destruct (CCS_ENABLE_MULTI_THREADS b); cbn [andb].
  - rewrite (bind_ok _ _ _ _ _ (mutex_using_threads_ok w)).
    destruct (ccs_uses_threads (thr w)); [|reflexivity].
    unfold platform_trylock, bind, get, put, ret.
    destruct (service_mutex_trylock mutex (plat w)); reflexivity.
  - destruct Hb as [Hb|Hb]; [discriminate|]. now rewrite Hb.
Qed.

End MutexSequences.

(** ** Reference-counted singleton guard *)

Section DatatypeSequences.
Import CInt Datatype.
Variables CCS_DATATYPE_FLAG_PREDEFINED CCS_SUCCESS CCS_ERROR : Z.

Local Abbreviation destroy :=
  (service_datatype_destroy CCS_DATATYPE_FLAG_PREDEFINED CCS_SUCCESS CCS_ERROR).
Local Abbreviation destroy_all :=
  (destroy_each CCS_DATATYPE_FLAG_PREDEFINED CCS_SUCCESS CCS_ERROR).
Local Abbreviation predefined := (is_predefined CCS_DATATYPE_FLAG_PREDEFINED).
Local Abbreviation eval :=
  (destroy_eval CCS_DATATYPE_FLAG_PREDEFINED CCS_SUCCESS CCS_ERROR).

(** Destroy returns only on a valid handle to a live object. *)
Lemma destroy_ok_inv (w w' : world) dt r :
  destroy dt w = Ok r w' ->
  exists p o, dt <> NULL /\ handles w !! dt = Some p /\
              p <> NULL /\ objects w !! p = Some o.
Proof.
  unfold service_datatype_destroy, and_then, bind, deref.
  destruct (decide (dt = NULL)) as [|Hdt]; [discriminate|].
  destruct (handles w !! dt) as [p|] eqn:Hh; [|discriminate].
  destruct (decide (p = NULL)) as [|Hp]; [discriminate|].
  destruct (objects w !! p) as [o|] eqn:Ho; [|discriminate].
  intros _. exists p, o. auto.
Qed.

Lemma destroy_null_handle (w : world) dt :
  dt <> NULL -> handles w !! dt = Some NULL -> destroy dt w = Fault NullDeref.
Proof.
  intros Hdt Hh. unfold service_datatype_destroy, and_then.
  mrun (deref_ok handles dt NULL w Hdt Hh).
  unfold bind. now rewrite deref_null.
Qed.

(** Destroy leaves the handles it was not given alone. *)
Lemma destroy_other_handles (w w' : world) dt r :
  destroy dt w = Ok r w' ->
  forall dt', dt' <> dt -> handles w' !! dt' = handles w !! dt'.
Proof.
  intros Hrun dt' Hne.
  destruct (destroy_ok_inv w w' dt r Hrun) as (p & o & Hdt & Hh & Hp & Ho).
  rewrite (eval w dt p o Hdt Hh Hp Ho) in Hrun.
  destruct (predefined o && (obj_reference_count o <=? 1)).
  - now injection Hrun as <- <-.
  - cbv zeta in Hrun. injection Hrun as <- <-. cbn [handles].
    now apply lookup_insert_ne.
Qed.

(** X18. Whenever destroy returns, it has touched nothing but the handle
    it was given and the object that handle pointed to: every other handle,
    those that point to the same object included, and every other object
    are as they were, the flags of the object are unchanged if it is still
    allocated, and at most that one object was handed to the release
    operation. *)
Theorem destroy_frame (w w' : world) (dt p r : Z) :
  destroy dt w = Ok r w' -> handles w !! dt = Some p ->
  (forall dt', dt' <> dt -> handles w' !! dt' = handles w !! dt') /\
  (forall q, q <> p -> objects w' !! q = objects w !! q) /\
  (forall o', objects w' !! p = Some o' ->
     exists o, objects w !! p = Some o /\ flags o' = flags o) /\
  (released w' = released w \/ released w' = released w ++ [p]).
Proof.
  intros Hrun Hh.
  destruct (destroy_ok_inv w w' dt r Hrun) as (p' & o & Hdt & Hh' & Hp & Ho).
  assert (p' = p) by congruence. subst p'.
  rewrite (eval w dt p o Hdt Hh Hp Ho) in Hrun.
  destruct (predefined o && (obj_reference_count o <=? 1)).
  - injection Hrun as <- <-. repeat split; auto. intros o' Ho'. exists o'. auto.
  - cbv zeta in Hrun. remember (conv Int32 (obj_reference_count o + -1)) as c.
    destruct (0 =? c); injection Hrun as <- <-; cbn [handles objects released].
    + split; [|split; [|split]].
      * intros dt' Hne. now apply lookup_insert_ne.
      * intros q Hne. now apply lookup_delete_ne.
      * intros o'. rewrite lookup_delete_eq. discriminate.
      * right. reflexivity.
    + split; [|split; [|split]].
      * intros dt' Hne. now apply lookup_insert_ne.
      * intros q Hne. now apply lookup_insert_ne.
      * intros o'. rewrite lookup_insert_eq. intros [= <-]. exists o. auto.
      * right. reflexivity.
Qed.

(** X19. Destroy does not bear being repeated: after a destroy that
    released the object, a second destroy through the same handle finds
    [NULL] in it and faults on a null dereference. *)
Theorem destroy_twice_faults (w : world) (dt p : Z) (o : service_datatype_t) :
  dt <> NULL -> handles w !! dt = Some p ->
  p <> NULL -> objects w !! p = Some o ->
  ~ (predefined o = true /\ obj_reference_count o <= 1) ->
  exists w',
    destroy dt w = Ok CCS_SUCCESS w' /\
    handles w' !! dt = Some NULL /\
    destroy dt w' = Fault NullDeref.
Proof.
  intros Hdt Hh Hp Ho Hnot.
  rewrite (eval w dt p o Hdt Hh Hp Ho).
  assert (Hc : predefined o && (obj_reference_count o <=? 1) = false).
  { apply not_true_is_false. intros Hb. apply andb_true_iff in Hb.
    destruct Hb as [H1 H2]. apply Z.leb_le in H2. apply Hnot. split; assumption. }
  rewrite Hc. cbv zeta. eexists. split; [reflexivity|].
  assert (Hnull : forall o' r f,
            handles (World (<[dt := NULL]> (handles w)) o' r f) !! dt = Some NULL).
  { intros. simpl. apply lookup_insert_eq. }
  split; [apply Hnull|]. apply destroy_null_handle; [exact Hdt | apply Hnull].
Qed.

(** One destroy, seen from a predefined object whose count is at least 1. *)
Lemma destroy_keeps_predefined (w w' : world) dt r p o :
  objects w !! p = Some o -> predefined o = true ->
  1 <= obj_reference_count o <= 2 ^ 31 - 1 ->
  destroy dt w = Ok r w' ->
  exists o' extra,
    objects w' !! p = Some o' /\ flags o' = flags o /\
    1 <= obj_reference_count o' <= obj_reference_count o /\
    freed w' = freed w ++ extra /\ ~ In p extra.
Proof.
  intros Ho Hpre Hrc Hrun.
  destruct (destroy_ok_inv w w' dt r Hrun) as (q & oq & Hdt & Hh & Hq & Hoq).
  rewrite (eval w dt q oq Hdt Hh Hq Hoq) in Hrun.
  destruct (predefined oq && (obj_reference_count oq <=? 1)) eqn:Hg.
  - injection Hrun as <- <-. exists o, []. rewrite app_nil_r.
    repeat split; auto; lia.
  - cbv zeta in Hrun.
    destruct (decide (q = p)) as [->|Hne].
    + assert (oq = o) by congruence. subst oq.
      rewrite Hpre in Hg. cbn [andb] in Hg. apply Z.leb_gt in Hg.
      replace (obj_reference_count o + -1) with (obj_reference_count o - 1) in Hrun by lia.
      rewrite (conv_in_range Int32 (obj_reference_count o - 1)) in Hrun
        by (unfold in_range; simpl; lia).
      destruct (0 =? obj_reference_count o - 1) eqn:E.
      { apply Z.eqb_eq in E. lia. }
      injection Hrun as <- <-. cbn [objects freed].
      exists (with_count (obj_reference_count o - 1) o), [].
      rewrite app_nil_r, lookup_insert_eq. cbn [flags obj_reference_count with_count].
      repeat split; auto; lia.
    + remember (conv Int32 (obj_reference_count oq + -1)) as c.
      destruct (0 =? c); injection Hrun as <- <-; cbn [objects freed].
      * exists o, [q]. rewrite lookup_delete_ne by congruence.
        repeat split; auto; try lia. intros [E|[]]. congruence.
      * exists o, []. rewrite app_nil_r, lookup_insert_ne by congruence.
        repeat split; auto; lia.
Qed.

(** X20. A predefined object whose count is at least 1 survives every
    sequence of destroy calls that returns, through whatever handles the
    calls are made: it is still allocated and predefined, its count is
    still at least 1, and it is not among the objects freed on the way. *)
Theorem predefined_never_freed (dts : list Z) (w w' : world) (rs : list Z)
    (p : Z) (o : service_datatype_t) :
  objects w !! p = Some o -> predefined o = true ->
  1 <= obj_reference_count o <= 2 ^ 31 - 1 ->
  destroy_all dts w = Ok rs w' ->
  exists o' extra,
    objects w' !! p = Some o' /\ predefined o' = true /\
    1 <= obj_reference_count o' <= obj_reference_count o /\
    freed w' = freed w ++ extra /\ ~ In p extra.
Proof.
  revert w rs o. induction dts as [|dt rest IH]; intros w rs o Ho Hpre Hrc Hrun.
  - cbn in Hrun. injection Hrun as <- <-. exists o, []. rewrite app_nil_r.
    repeat split; auto; lia.
  - cbn [destroy_each] in Hrun. unfold bind at 1 in Hrun.
    destruct (destroy dt w) as [r w1|] eqn:Hstep; [|discriminate].
    destruct (destroy_keeps_predefined w w1 dt r p o Ho Hpre Hrc Hstep)
      as (o1 & e1 & Ho1 & Hfl & Hrc1 & Hfr1 & Hnot1).
    unfold bind at 1 in Hrun.
    destruct (destroy_all rest w1) as [rs1 w2|] eqn:Hrest; [|discriminate].
    injection Hrun as <- <-.
    assert (Hpre1 : predefined o1 = true).
    { unfold is_predefined in *. now rewrite Hfl. }
    destruct (IH w1 rs1 o1 Ho1 Hpre1 ltac:(lia) Hrest)
      as (o2 & e2 & Ho2 & Hpre2 & Hrc2 & Hfr2 & Hnot2).
    exists o2, (e1 ++ e2). split; [exact Ho2|]. split; [exact Hpre2|].
    split; [lia|]. split.
    + rewrite Hfr2, Hfr1. now rewrite app_assoc.
    + rewrite in_app_iff. tauto.
Qed.

(** A destroy that releases an object whose count is above 1. *)
Lemma destroy_shared_step (w : world) dt p o :
  dt <> NULL -> handles w !! dt = Some p ->
  p <> NULL -> objects w !! p = Some o ->
  2 <= obj_reference_count o <= 2 ^ 31 - 1 ->
  destroy dt w =
    Ok CCS_SUCCESS
       (World (<[dt := NULL]> (handles w))
              (<[p := with_count (obj_reference_count o - 1) o]> (objects w))
              (released w ++ [p]) (freed w)).
Proof.
  intros Hdt Hh Hp Ho Hrc. rewrite (eval w dt p o Hdt Hh Hp Ho).
  assert (Hle : (obj_reference_count o <=? 1) = false) by (apply Z.leb_gt; lia).
  rewrite Hle, andb_false_r. cbv zeta.
  replace (obj_reference_count o + -1) with (obj_reference_count o - 1) by lia.
  rewrite (conv_in_range Int32 (obj_reference_count o - 1))
    by (unfold in_range; simpl; lia).
  destruct (0 =? obj_reference_count o - 1) eqn:E; [|reflexivity].
  apply Z.eqb_eq in E. lia.
Qed.

(** The handles that are left still point to the object after such a step. *)
Lemma handles_after_step (w : world) dt p (rest : list Z) o' r f :
  ~ In dt rest ->
  Forall (fun d => d <> NULL /\ handles w !! d = Some p) rest ->
  Forall (fun d => d <> NULL /\
                   handles (World (<[dt := NULL]> (handles w)) o' r f) !! d = Some p) rest.
Proof.
  intros Hnot Hall. rewrite Forall_forall in *. intros d Hd.
  destruct (Hall d Hd) as [Hn Hl]. split; [exact Hn|].
  simpl. rewrite lookup_insert_ne; [exact Hl|].
  intros ->. apply Hnot. apply list_elem_of_In. exact Hd.
Qed.

(** X21. Reference counting through destroy: when an object that is not
    predefined has as many distinct handles as its count says, one at
    least, destroying it through each of them in turn returns
    [CCS_SUCCESS] every time, hands the object to the release operation
    once per call and frees it once, at the last call; all those handles
    hold [NULL] afterwards and the other handles are untouched. *)
Theorem destroy_each_drains (dts : list Z) (w : world) (p : Z) (o : service_datatype_t) :
  dts <> [] -> List.NoDup dts ->
  Forall (fun d => d <> NULL /\ handles w !! d = Some p) dts ->
  p <> NULL -> objects w !! p = Some o -> predefined o = false ->
  obj_reference_count o = Z.of_nat (length dts) ->
  obj_reference_count o <= 2 ^ 31 - 1 ->
  exists w',
    destroy_all dts w = Ok (repeat CCS_SUCCESS (length dts)) w' /\
    objects w' = delete p (objects w) /\
    released w' = released w ++ repeat p (length dts) /\
    freed w' = freed w ++ [p] /\
    (forall d, In d dts -> handles w' !! d = Some NULL) /\
    (forall d, ~ In d dts -> handles w' !! d = handles w !! d).
Proof.
  revert w o. induction dts as [|dt rest IH]; intros w o Hne Hnd Hall Hp Ho Hpre Hlen Hmax;
    [contradiction|].
  inversion Hnd as [|dt' rest' Hnotin Hnd']; subst.
  inversion Hall as [|dt' rest' [Hdt Hh] Hrest]; subst.
  destruct rest as [|dt2 rest2].
  - cbn [length] in Hlen. cbn [destroy_each].
    pose proof (eval w dt p o Hdt Hh Hp Ho) as E.
    rewrite Hpre, Hlen in E. cbn [andb] in E. cbv zeta in E.
    change (conv Int32 (Z.of_nat 1 + -1)) with 0 in E. cbn [Z.eqb] in E.
    rewrite (bind_ok _ _ _ _ _ E).
    eexists. split; [reflexivity|]. cbn [objects released freed handles length repeat].
    split; [reflexivity|]. split; [reflexivity|]. split; [reflexivity|]. split.
    + intros d [<-|[]]. apply lookup_insert_eq.
    + intros d Hd. apply lookup_insert_ne. intros <-. apply Hd. now left.
  - assert (Hrc : 2 <= obj_reference_count o <= 2 ^ 31 - 1).
    { rewrite Hlen in *. cbn [length] in *. lia. }
    pose proof (destroy_shared_step w dt p o Hdt Hh Hp Ho Hrc) as Hstep.
    set (w1 := World (<[dt := NULL]> (handles w))
                     (<[p := with_count (obj_reference_count o - 1) o]> (objects w))
                     (released w ++ [p]) (freed w)) in *.
    destruct (IH w1 (with_count (obj_reference_count o - 1) o)) as
      (w' & Hrun & Hobj & Hrel & Hfr & Hnull & Hother).
    + discriminate.
    + exact Hnd'.
    + apply handles_after_step; [exact Hnotin | exact Hrest].
    + exact Hp.
    + apply lookup_insert_eq.
    + exact Hpre.
    + cbn [obj_reference_count with_count]. rewrite Hlen. cbn [length]. lia.
    + cbn [obj_reference_count with_count]. lia.
    + exists w'. split.
      { change (destroy_all (dt :: dt2 :: rest2))
          with (bind (destroy dt)
                  (fun r => bind (destroy_all (dt2 :: rest2)) (fun rs => ret (r :: rs)))).
        rewrite (bind_ok _ _ _ _ _ Hstep), (bind_ok _ _ _ _ _ Hrun). reflexivity. }
      split. { rewrite Hobj. subst w1. cbn [objects]. apply delete_insert_eq. }
      split. { rewrite Hrel. subst w1. cbn [released]. now rewrite <- app_assoc. }
      split. { rewrite Hfr. reflexivity. }
      split.
      * intros d [<-|Hin]; [|apply Hnull; exact Hin].
        rewrite Hother.
        -- subst w1. cbn [handles]. apply lookup_insert_eq.
        -- exact Hnotin.
      * intros d Hd. rewrite Hother.
        -- subst w1. cbn [handles]. apply lookup_insert_ne. intros <-. apply Hd. now left.
        -- intros Hin. apply Hd. now right.
Qed.

(** X22. The floor of a predefined object: when a predefined object has as
    many distinct handles as its count says, one at least, destroying it
    through each of them in turn returns [CCS_SUCCESS] for all but the
    last and [CCS_ERROR] for the last; the object is never freed and keeps
    count 1, the last handle still points to it, and the handles before it
    hold [NULL]. *)
Theorem destroy_each_floor (dts : list Z) (w : world) (p : Z) (o : service_datatype_t) :
  dts <> [] -> List.NoDup dts ->
  Forall (fun d => d <> NULL /\ handles w !! d = Some p) dts ->
  p <> NULL -> objects w !! p = Some o -> predefined o = true ->
  obj_reference_count o = Z.of_nat (length dts) ->
  obj_reference_count o <= 2 ^ 31 - 1 ->
  exists w',
    destroy_all dts w =
      Ok (repeat CCS_SUCCESS (length dts - 1) ++ [CCS_ERROR]) w' /\
    objects w' = <[p := with_count 1 o]> (objects w) /\
    released w' = released w ++ repeat p (length dts - 1) /\
    freed w' = freed w /\
    handles w' !! List.last dts NULL = Some p /\
    (forall d, In d (removelast dts) -> handles w' !! d = Some NULL).
Proof.
  revert w o. induction dts as [|dt rest IH]; intros w o Hne Hnd Hall Hp Ho Hpre Hlen Hmax;
    [contradiction|].
  inversion Hnd as [|dt' rest' Hnotin Hnd']; subst.
  inversion Hall as [|dt' rest' [Hdt Hh] Hrest]; subst.
  destruct rest as [|dt2 rest2].
  - cbn [length] in Hlen. cbn [destroy_each].
    pose proof (eval w dt p o Hdt Hh Hp Ho) as E.
    rewrite Hpre, Hlen in E. cbn [andb] in E.
    change (Z.of_nat 1 <=? 1) with true in E. cbv iota in E.
    rewrite (bind_ok _ _ _ _ _ E).
    exists w. split; [reflexivity|]. cbn [length repeat removelast List.last Nat.sub app].
    split.
    { assert (Eo : with_count 1 o = o) by (destruct o as [fl c]; cbn [obj_reference_count] in Hlen;
          change (Z.of_nat 1) with 1 in Hlen; rewrite Hlen; reflexivity).
      rewrite Eo. symmetry. now apply insert_id. }
    split; [now rewrite app_nil_r|]. split; [reflexivity|]. split; [exact Hh|].
    intros d [].
  - assert (Hrc : 2 <= obj_reference_count o <= 2 ^ 31 - 1).
    { rewrite Hlen in *. cbn [length] in *. lia. }
    pose proof (destroy_shared_step w dt p o Hdt Hh Hp Ho Hrc) as Hstep.
    set (w1 := World (<[dt := NULL]> (handles w))
                     (<[p := with_count (obj_reference_count o - 1) o]> (objects w))
                     (released w ++ [p]) (freed w)) in *.
    destruct (IH w1 (with_count (obj_reference_count o - 1) o)) as
      (w' & Hrun & Hobj & Hrel & Hfr & Hlast & Hnull).
    + discriminate.
    + exact Hnd'.
    + apply handles_after_step; [exact Hnotin | exact Hrest].
    + exact Hp.
    + apply lookup_insert_eq.
    + exact Hpre.
    + cbn [obj_reference_count with_count]. rewrite Hlen. cbn [length]. lia.
    + cbn [obj_reference_count with_count]. lia.
    + exists w'. split.
      { change (destroy_all (dt :: dt2 :: rest2))
          with (bind (destroy dt)
                  (fun r => bind (destroy_all (dt2 :: rest2)) (fun rs => ret (r :: rs)))).
        rewrite (bind_ok _ _ _ _ _ Hstep), (bind_ok _ _ _ _ _ Hrun).
        cbn [length Nat.sub]. rewrite Nat.sub_0_r. reflexivity. }
      split.
      { rewrite Hobj. subst w1. cbn [objects]. rewrite insert_insert_eq. reflexivity. }
      split.
      { rewrite Hrel. subst w1. cbn [released length Nat.sub].
        rewrite Nat.sub_0_r, <- app_assoc. reflexivity. }
      split. { rewrite Hfr. reflexivity. }
      split.
      * exact Hlast.
      * change (removelast (dt :: dt2 :: rest2)) with (dt :: removelast (dt2 :: rest2)).
        intros d [<-|Hin]; [|apply Hnull; exact Hin].
        assert (Hkeep : forall l (v : world) rs v',
                  ~ In dt l -> destroy_all l v = Ok rs v' ->
                  handles v' !! dt = handles v !! dt).
        { clear. induction l as [|a l IHl]; intros v rs v' Hn Hr.
          - cbn in Hr. now injection Hr as <- <-.
          - cbn [destroy_each] in Hr. unfold bind at 1 in Hr.
            destruct (destroy a v) as [r v1|] eqn:Hs; [|discriminate].
            unfold bind at 1 in Hr.
            destruct (destroy_all l v1) as [rs1 v2|] eqn:Hl; [|discriminate].
            injection Hr as <- <-.
            rewrite (IHl v1 rs1 v2 (fun H => Hn (or_intror H)) Hl).
            apply (destroy_other_handles v v1 a r Hs).
            intros ->. apply Hn. now left. }
        rewrite (Hkeep _ _ _ _ Hnotin Hrun).
        subst w1. cbn [handles]. apply lookup_insert_eq.
Qed.

End DatatypeSequences.

(** ** The further properties at the sample worlds *)

Section FurtherInstances.
Import CInt ThreadMode Sample.

Ltac nonnull := unfold NULL; cbn; lia.

Lemma thread_add_twice_witness :
  bind (Atomic.CCS_THREAD_ADD Int32 plain_build 8 1)
       (fun _ => Atomic.CCS_THREAD_ADD Int32 plain_build 8 2) counter_world =
    Atomic.CCS_THREAD_ADD Int32 plain_build 8 (1 + 2) counter_world.
Proof.
  apply (thread_add_twice Int32 plain_build 8 1 2 41 counter_world);
    [reflexivity | nonnull | reflexivity].
Defined.

(** An [int32_t] at its largest value: the add of 1 wraps around. *)
Lemma thread_add_undo_witness :
  bind (Atomic.CCS_THREAD_ADD Int32 threaded_build 8 1)
       (fun _ => Atomic.CCS_THREAD_ADD Int32 threaded_build 8 (- 1))
       (Atomic.World (Globals false) {[8 := 2147483647]})
  = Ok 2147483647 (Atomic.World (Globals false) {[8 := 2147483647]}).
Proof.
  apply (thread_add_undo Int32 threaded_build 8 1 2147483647
           (Atomic.World (Globals false) {[8 := 2147483647]}));
    [reflexivity | nonnull | reflexivity | unfold in_range; simpl; lia].
Defined.

Lemma thread_add_frame_witness :
  in_range Int32 (-2147483648) /\
  Atomic.cells (Atomic.World (Globals true) {[8 := -2147483648]}) !! 8
    = Some (-2147483648).
Proof.
  destruct (thread_add_frame Int32 threaded_build 8 1 (-2147483648)
              (Atomic.World (Globals true) {[8 := 2147483647]})
              (Atomic.World (Globals true) {[8 := -2147483648]}))
    as (Hr & Hx & _); [vm_compute; reflexivity|].
  split; [exact Hr | exact Hx].
Defined.

Lemma cmpset_single_winner_witness :
  Atomic.CCS_CMPSET 8 0 1 ({[8 := 0]} : gmap Z Z) = Ok 1 (<[8 := 1]> {[8 := 0]}) /\
  Atomic.CCS_CMPSET 8 0 1 (<[8 := 1]> ({[8 := 0]} : gmap Z Z))
    = Ok 0 (<[8 := 1]> {[8 := 0]}).
Proof.
  apply (cmpset_single_winner ({[8 := 0]} : gmap Z Z) 8 0 1);
    [nonnull | reflexivity | lia].
Defined.

Lemma cmpset_swap_back_witness :
  exists c1,
    Atomic.CCS_CMPSET 8 0 1 ({[8 := 0]} : gmap Z Z) = Ok 1 c1 /\
    c1 !! 8 = Some 1 /\
    Atomic.CCS_CMPSET 8 1 0 c1 = Ok 1 {[8 := 0]}.
Proof.
  apply (cmpset_swap_back ({[8 := 0]} : gmap Z Z) 8 0 1); [nonnull | reflexivity].
Defined.

Lemma cmpset_frame_witness :
  (1 = 0 \/ 1 = 1) /\
  ({[8 := 7; 9 := 6]} : gmap Z Z) !! 9 = ({[8 := 5; 9 := 6]} : gmap Z Z) !! 9.
Proof.
  destruct (cmpset_frame ({[8 := 5; 9 := 6]} : gmap Z Z) {[8 := 7; 9 := 6]} 8 1 5 7)
    as (Hr & Hother & _); [vm_compute; reflexivity|].
  split; [exact Hr | apply Hother; lia].
Defined.

Lemma atomic_cmpset_fallback_witness :
  exists w',
    Atomic.CCS_ATOMIC_CMPSET_32 cmpset_stub threaded_build 8 41 0 counter_world
      = Ok 1 w' /\
    Atomic.CCS_ATOMIC_CMPSET_64 cmpset_stub threaded_build 8 41 0 counter_world
      = Ok 1 w' /\
    Atomic.CCS_ATOMIC_CMPSET cmpset_stub threaded_build 8 41 0 counter_world
      = Ok 1 w' /\
    Atomic.cells w' !! 8 = Some 0.
Proof.
  destruct (atomic_cmpset_fallback cmpset_stub cmpset_stub cmpset_stub
              threaded_build 8 41 0 41 counter_world)
    as (r & w' & H32 & H64 & Hword & Hone & _ & Hstore & _);
    [right; reflexivity | nonnull | reflexivity |].
  assert (Hr : r = 1) by (apply Hone; reflexivity). subst r.
  exists w'. split; [exact H32|]. split; [exact H64|]. split; [exact Hword|].
  apply Hstore. reflexivity.
Defined.

Lemma debug_lock_spec_witness :
  exists w',
    Mutex.CCS_THREAD_LOCK debug_build 1 "b.c" 20 (mutex_world true locked) = Ok tt w' /\
    Mutex.mutexes w' !! 1 = Some (Mutex.Mtx 2 (Some "b.c"%string) 20) /\
    Mutex.output w' =
      [Mutex.Msg "Warning -- mutex already locked at %s:%d, now at %s:%d"
         [Mutex.AStr (Some "a.c"%string); Mutex.AInt 10;
          Mutex.AStr (Some "b.c"%string); Mutex.AInt 20]].
Proof.
  destruct (debug_lock_spec (mutex_world true locked) 1 locked "b.c" 20)
    as (w' & d' & Hrun & Hmutex & _ & _ & _ & _ & _ & Hexact & Hwarn & _);
    [nonnull | reflexivity |].
  assert (Hd : d' = 2) by (apply Hexact; simpl; lia). subst d'.
  exists w'. split; [exact Hrun|]. split; [exact Hmutex|].
  apply Hwarn; [reflexivity | lia].
Defined.

Lemma debug_lock_unlock_balanced_witness :
  Mutex.run debug_build
    (concat (repeat [Mutex.Lock 1 "a.c" 10; Mutex.Unlock 1 "a.c" 12] 3))
    (mutex_world true unlocked)
  = Ok tt (Mutex.update 1 (Mutex.Mtx 0 None 0) [] (mutex_world true unlocked)).
Proof.
  apply (debug_lock_unlock_balanced (mutex_world true unlocked) 1 unlocked
           "a.c" "a.c" 10 12 2); [nonnull | reflexivity | reflexivity].
Defined.

Lemma debug_trylock_held_witness :
  exists w',
    bind (Mutex.CCS_THREAD_LOCK debug_build 1 "a.c" 10)
         (fun _ => Mutex.CCS_THREAD_TRYLOCK debug_build 1 "b.c" 20)
         (mutex_world true unlocked) = Ok (-1) w' /\
    Mutex.mutexes w' !! 1 = Some (Mutex.Mtx 1 (Some "a.c"%string) 10) /\
    Mutex.output w' =
      [Mutex.Msg "Warning -- during trylock, mutex already locked at %s:%d now at %s:%d"
         [Mutex.AStr (Some "b.c"%string); Mutex.AInt 20;
          Mutex.AStr (Some "a.c"%string); Mutex.AInt 10]].
Proof.
  destruct (debug_trylock_held (mutex_world true unlocked) 1 unlocked
              "a.c" "b.c" 10 20)
    as (w' & Hlock & _ & Hmutex & _ & Hwarn & _);
    [nonnull | reflexivity | reflexivity |].
  exists w'. split; [exact Hlock|]. split; [exact Hmutex|].
  apply Hwarn. reflexivity.
Defined.

Lemma debug_double_lock_reported_witness :
  exists w',
    bind (Mutex.CCS_THREAD_LOCK debug_build 1 "a.c" 10)
         (fun _ => Mutex.CCS_THREAD_LOCK debug_build 1 "b.c" 20)
         (mutex_world true unlocked) = Ok tt w' /\
    Mutex.mutexes w' !! 1 = Some (Mutex.Mtx 2 (Some "b.c"%string) 20) /\
    Mutex.output w' =
      [Mutex.Msg "Warning -- mutex already locked at %s:%d, now at %s:%d"
         [Mutex.AStr (Some "a.c"%string); Mutex.AInt 10;
          Mutex.AStr (Some "b.c"%string); Mutex.AInt 20]].
Proof.
  destruct (debug_double_lock_reported (mutex_world true unlocked) 1 unlocked
              "a.c" "b.c" 10 20)
    as (w' & Hrun & Hmutex & _ & Hout);
    [nonnull | reflexivity | reflexivity | reflexivity |].
  exists w'. split; [exact Hrun|]. split; [exact Hmutex | exact Hout].
Defined.

(** Two unlocks of a mutex nobody holds: reported, not refused. *)
Lemma debug_run_advisory_witness :
  exists w' extra,
    Mutex.run debug_build [Mutex.Unlock 1 "a.c" 3; Mutex.Unlock 1 "a.c" 4]
      (mutex_world true unlocked) = Ok tt w' /\
    Mutex.plat w' = [] /\
    Mutex.output w' = [] ++ extra /\ (length extra <= 2)%nat.
Proof.
  destruct (debug_run_advisory [Mutex.Unlock 1 "a.c" 3; Mutex.Unlock 1 "a.c" 4]
              (mutex_world true unlocked))
    as (w' & extra & Hrun & _ & Hplat & _ & _ & Hout & Hlen & _).
  { constructor; [split; [nonnull | exists unlocked; reflexivity]|].
    constructor; [split; [nonnull | exists unlocked; reflexivity]|].
    constructor. }
  exists w', extra. split; [exact Hrun|]. split; [exact Hplat|].
  split; [exact Hout | exact Hlen].
Defined.

Lemma debug_scoped_lock_warning_witness :
  exists w1,
    Mutex.CCS_THREAD_SCOPED_LOCK debug_build 1 (ret tt) "b.c" 20
      (mutex_world false locked) =
      bind (ret tt) (fun _ => Mutex.incr_debug 1) w1 /\
    Mutex.output w1 =
      [Mutex.Msg "scoped_lock: Warning -- mutex already locked at %s:%d, now at %s:%d"
         [Mutex.AStr (Some "b.c"%string); Mutex.AInt 20;
          Mutex.AStr (Some "a.c"%string); Mutex.AInt 10]].
Proof.
  destruct (debug_scoped_lock_warning (mutex_world false locked) 1 locked
              (ret tt) "b.c" 20)
    as (w1 & Hrun & _ & Hwarn & _); [nonnull | reflexivity |].
  exists w1. split; [exact Hrun|]. apply Hwarn. simpl. lia.
Defined.

(** On the recording platform the two calls are recorded, in order. *)
Lemma threaded_run_delegates_witness :
  exists w',
    Mutex.run threaded_build [Mutex.Lock 1 "a.c" 10; Mutex.Unlock 1 "a.c" 12]
      threaded_world = Ok tt w' /\
    Mutex.plat w' = ([Mutex.PLock 1; Mutex.PUnlock 1] : list Mutex.pcall) /\
    Mutex.mutexes w' = Mutex.mutexes threaded_world /\
    Mutex.output w' = [].
Proof.
  destruct (threaded_run_delegates threaded_build
              [Mutex.Lock 1 "a.c" 10; Mutex.Unlock 1 "a.c" 12] threaded_world)
    as (w' & Hrun & Hplat & Hmutexes & Hout & _); [reflexivity | reflexivity |].
  exists w'. split; [exact Hrun|]. split; [exact Hplat|].
  split; [exact Hmutexes | exact Hout].
Defined.

Lemma scoped_lock_is_lock_action_unlock_witness :
  Mutex.CCS_THREAD_SCOPED_LOCK threaded_build 1 (ret tt) "a.c" 10 threaded_world =
    bind (Mutex.CCS_THREAD_LOCK threaded_build 1 "a.c" 10)
         (fun _ => bind (ret tt)
                     (fun _ => Mutex.CCS_THREAD_UNLOCK threaded_build 1 "a.c" 10))
         threaded_world.
Proof.
  apply (scoped_lock_is_lock_action_unlock threaded_build 1 (ret tt) "a.c" 10
           threaded_world).
  - left. reflexivity.
  - intros w1 w2 H. injection H as <-. reflexivity.
Defined.

Lemma trylock_outside_debug_witness :
  Mutex.CCS_THREAD_TRYLOCK plain_build NULL "a.c" 10 (mutex_world true locked)
  = Ok 0 (mutex_world true locked).
Proof.
  apply (trylock_outside_debug plain_build NULL "a.c" 10 (mutex_world true locked)).
  right. reflexivity.
Defined.

(** The second handle to the object is not cleared by a destroy through
    the first. *)
Lemma destroy_frame_witness :
  Datatype.handles
    (Datatype.World {[100 := NULL; 101 := 200]} {[200 := plain_1]} [200] [])
    !! 101 = Datatype.handles (shared_world plain_2) !! 101.
Proof.
  destruct (destroy_frame FLAG_PREDEFINED SUCCESS ERROR (shared_world plain_2)
              (Datatype.World {[100 := NULL; 101 := 200]} {[200 := plain_1]} [200] [])
              100 200 SUCCESS) as (Hh & _); [vm_compute; reflexivity | reflexivity |].
  apply Hh. lia.
Defined.

Lemma destroy_twice_faults_witness :
  exists w',
    Datatype.service_datatype_destroy FLAG_PREDEFINED SUCCESS ERROR 100
      (datatype_world plain_1) = Ok SUCCESS w' /\
    Datatype.handles w' !! 100 = Some NULL /\
    Datatype.service_datatype_destroy FLAG_PREDEFINED SUCCESS ERROR 100 w'
      = Fault NullDeref.
Proof.
  apply (destroy_twice_faults FLAG_PREDEFINED SUCCESS ERROR
           (datatype_world plain_1) 100 200 plain_1);
    [nonnull | reflexivity | nonnull | reflexivity | intros [Hp _]; discriminate Hp].
Defined.

Lemma predefined_never_freed_witness :
  exists o' extra,
    Datatype.objects (Datatype.World {[100 := NULL; 101 := 200]}
                        {[200 := predefined_1]} [200] []) !! 200 = Some o' /\
    Datatype.is_predefined FLAG_PREDEFINED o' = true /\
    1 <= Datatype.obj_reference_count o' <= 2 /\
    ([] : list Z) = [] ++ extra /\ ~ In 200 extra.
Proof.
  apply (predefined_never_freed FLAG_PREDEFINED SUCCESS ERROR [100; 101]
           (shared_world predefined_2)
           (Datatype.World {[100 := NULL; 101 := 200]} {[200 := predefined_1]} [200] [])
           [SUCCESS; ERROR] 200 predefined_2);
    [reflexivity | reflexivity | simpl; lia | vm_compute; reflexivity].
Defined.

Lemma destroy_each_drains_witness :
  exists w',
    Datatype.destroy_each FLAG_PREDEFINED SUCCESS ERROR [100; 101]
      (shared_world plain_2) = Ok [SUCCESS; SUCCESS] w' /\
    Datatype.objects w' = delete 200 (Datatype.objects (shared_world plain_2)) /\
    Datatype.released w' = [200; 200] /\
    Datatype.freed w' = [200].
Proof.
  destruct (destroy_each_drains FLAG_PREDEFINED SUCCESS ERROR [100; 101]
              (shared_world plain_2) 200 plain_2)
    as (w' & Hrun & Hobj & Hrel & Hfr & _).
  - discriminate.
  - constructor; [simpl; intuition lia|]. constructor; [simpl; tauto|]. constructor.
  - constructor; [split; [nonnull | reflexivity]|].
    constructor; [split; [nonnull | reflexivity]|]. constructor.
  - nonnull.
  - reflexivity.
  - reflexivity.
  - reflexivity.
  - simpl. lia.
  - exists w'. repeat split; assumption.
Defined.

Lemma destroy_each_floor_witness :
  exists w',
    Datatype.destroy_each FLAG_PREDEFINED SUCCESS ERROR [100; 101]
      (shared_world predefined_2) = Ok [SUCCESS; ERROR] w' /\
    Datatype.freed w' = [] /\
    Datatype.handles w' !! 101 = Some 200.
Proof.
  destruct (destroy_each_floor FLAG_PREDEFINED SUCCESS ERROR [100; 101]
              (shared_world predefined_2) 200 predefined_2)
    as (w' & Hrun & _ & _ & Hfr & Hlast & _).
  - discriminate.
  - constructor; [simpl; intuition lia|]. constructor; [simpl; tauto|]. constructor.
  - constructor; [split; [nonnull | reflexivity]|].
    constructor; [split; [nonnull | reflexivity]|]. constructor.
  - nonnull.
  - reflexivity.
  - reflexivity.
  - reflexivity.
  - simpl. lia.
  - exists w'. repeat split; assumption.
Defined.

End FurtherInstances.
